(** * Azure architecture blueprints: the deployment driver and the
      performance tracker

    A shallow embedding of [src/flows/interview-workflow/performance.py]
    and [src/infra/deploy.py].

    - Python floats are IEEE 754 binary64 numbers, modelled by
      [spec_float] with the operations of [SpecFloat] at precision 53.
    - Python dicts keep insertion order: a dict is an association list
      with the keys in insertion order, and [dict_set] is [d[k] = v].
    - A call either returns or raises; [sys.exit] is kept apart from
      exceptions because the driver's exit status is observable. *)

From Stdlib Require Import ZArith List String Ascii Bool Lia.
From Stdlib Require Import QArith Qround Qpower.
From Stdlib Require Import Floats.SpecFloat.
From Stdlib Require Import DecimalString.
Import ListNotations.

#[local] Set Warnings "-register-all".

Open Scope string_scope.
Open Scope Z_scope.

(** ** Python values *)

Module Py.

(** binary64 *)
Definition float := spec_float.
Definition prec : Z := 53.
Definition emax : Z := 1024.

Definition float_sub (x y : float) : float := SFsub prec emax x y.
Definition float_mul (x y : float) : float := SFmul prec emax x y.
(** [x >= y] on floats; false as soon as one side is NaN *)
Definition float_ge (x y : float) : bool := SFleb y x.

(** The float an [int] operand is converted to in mixed arithmetic. *)
Definition float_of_int (n : Z) : float := binary_normalize prec emax n 0 false.

Definition is_finite (x : float) : bool :=
  match x with
  | S754_zero _ | S754_finite _ _ _ => true
  | S754_infinity _ | S754_nan => false
  end.

Inductive value : Type :=
| VNone
| VBool (b : bool)
| VInt (n : Z)
| VFloat (x : float)
| VStr (s : string)
| VList (l : list value)
| VDict (d : list (string * value)).

Definition dict := list (string * value).

Inductive exn : Type :=
| KeyError (k : string)
| TypeError
| AttributeError
| ValueError
| OverflowError
| OSError (path : string)
| JSONDecodeError
| HttpResponseError.

(** Outcome of running Python code: a value, an uncaught exception, or
    [sys.exit code]. *)
Inductive result (A : Type) : Type :=
| Ok (a : A)
| Raise (e : exn)
| Exit (code : Z).
Arguments Ok {A} a.
Arguments Raise {A} e.
Arguments Exit {A} code.

Definition bind {A B} (m : result A) (f : A -> result B) : result B :=
  match m with
  | Ok a => f a
  | Raise e => Raise e
  | Exit c => Exit c
  end.

(** *** dicts *)

Fixpoint dict_get (k : string) (d : dict) : option value :=
  match d with
  | [] => None
  | (k', v) :: d' => if String.eqb k k' then Some v else dict_get k d'
  end.

(** [d[k] = v]: the value of an existing key is replaced in place, a
    new key goes to the end. *)
Fixpoint dict_set (k : string) (v : value) (d : dict) : dict :=
  match d with
  | [] => [(k, v)]
  | (k', v') :: d' =>
      if String.eqb k k' then (k', v) :: d' else (k', v') :: dict_set k v d'
  end.

Definition keys (d : dict) : list string := map fst d.

(** [d[k]] *)
Definition subscript (d : value) (k : string) : result value :=
  match d with
  | VDict d =>
      match dict_get k d with
      | Some v => Ok v
      | None => Raise (KeyError k)
      end
  | _ => Raise TypeError
  end.

(** [d.get(k, default)] *)
Definition get_default (d : value) (k : string) (default : value) : result value :=
  match d with
  | VDict d =>
      match dict_get k d with
      | Some v => Ok v
      | None => Ok default
      end
  | _ => Raise AttributeError
  end.

(** [d.items()] *)
Definition items (d : value) : result (list (string * value)) :=
  match d with
  | VDict d => Ok d
  | _ => Raise AttributeError
  end.

(** Truth value of an object, as [if x:] and [not x] test it. *)
Definition truthy (v : value) : bool :=
  match v with
  | VNone => false
  | VBool b => b
  | VInt n => negb (n =? 0)
  | VFloat x => match x with S754_zero _ => false | _ => true end
  | VStr s => negb (String.eqb s "")
  | VList l => match l with [] => false | _ => true end
  | VDict d => match d with [] => false | _ => true end
  end.

(** [int(x)] of a float: the fractional bits of the magnitude are
    dropped and the sign is put back; infinities and NaN have no
    integer. *)
Definition int_of_float (x : float) : result Z :=
  match x with
  | S754_zero _ => Ok 0
  | S754_finite s m e => Ok (cond_Zopp s (Z.shiftl (Zpos m) e))
  | S754_infinity _ => Raise OverflowError
  | S754_nan => Raise ValueError
  end.

(** The rational a finite float stands for. *)
Definition float_to_Q (x : float) : option Q :=
  match x with
  | S754_zero _ => Some 0%Q
  | S754_finite s m e => Some (inject_Z (cond_Zopp s (Zpos m)) * (2 # 1) ^ e)%Q
  | S754_infinity _ | S754_nan => None
  end.

(** Truncation toward zero of a rational. *)
Definition Qtrunc (q : Q) : Z :=
  if Qle_bool 0 q then Qfloor q else Qceiling q.

(** [{k: f(k, v) for k, v in its}], the entries added to [acc] one by
    one; the first failing [f] aborts the comprehension. *)
Fixpoint dict_comprehension (f : string -> value -> result value)
    (its : list (string * value)) (acc : dict) : result dict :=
  match its with
  | [] => Ok acc
  | (k, v) :: rest =>
      match f k v with
      | Ok x => dict_comprehension f rest (dict_set k x acc)
      | Raise e => Raise e
      | Exit c => Exit c
      end
  end.

(** The line feed. *)
Definition nl : string := String "010"%char EmptyString.

(** [sub in s] on strings. *)
Definition substring_of (sub s : string) : Prop :=
  exists pre post, s = pre ++ sub ++ post.

End Py.

Declare Scope py_scope.
Delimit Scope py_scope with py.
Notation "x <- m ;; k" := (Py.bind m (fun x => k))
  (at level 61, m at next level, right associativity) : py_scope.

(** ** [performance.py] *)

Module Performance.
Import Py.

(** The wall clock: what [time.time()] answers during the call. *)
Record Clock : Type := { time_time : float }.

Definition track_performance (clock : Clock) (start_time : float) : result dict :=
  let end_time := time_time clock in
  let total_time := float_sub end_time start_time in
  (ms <- int_of_float (float_mul total_time (float_of_int 1000)) ;;
   Ok [ ("total_execution_time_ms", VInt ms);
        ("start_time", VFloat start_time);
        ("end_time", VFloat end_time);
        ("status", VStr "completed");
        ("workflow_version", VStr "v1.0") ])%py.

(** The float whose integer part is stored in the record. *)
Definition elapsed_ms (clock : Clock) (start_time : float) : float :=
  float_mul (float_sub (time_time clock) start_time) (float_of_int 1000).

(** [record["end_time"] >= record["start_time"]], when both are floats. *)
Definition end_not_before_start (record : dict) : option bool :=
  match dict_get "end_time" record, dict_get "start_time" record with
  | Some (VFloat e), Some (VFloat s) => Some (float_ge e s)
  | _, _ => None
  end.

(** A timestamp: a finite binary64 number. *)
Definition valid_timestamp (x : float) : bool :=
  is_finite x && valid_binary prec emax x.

End Performance.

(** ** [deploy.py] *)

Module Deploy.
Import Py.

(** *** The SDK's models *)

Inductive DeploymentMode : Type := INCREMENTAL | COMPLETE.

Record DeploymentProperties : Type :=
  { mode : DeploymentMode; template : value; parameters : dict }.

Record Deployment : Type := { properties : DeploymentProperties }.

(** What the remote service answers: [result.properties]. [outputs] is
    [None] or a dict. *)
Record DeploymentExtended : Type :=
  { provisioning_state : string; outputs : value }.

(** The poller [begin_create_or_update] hands back; [poll] is what
    [operation.result()] answers once the remote operation is over. *)
Record LROPoller : Type := { poll : result DeploymentExtended }.

(** [subprocess.CompletedProcess] with captured text *)
Record CompletedProcess : Type :=
  { returncode : Z; stdout : string; stderr : string }.

(** *** Observable actions of a run, in order

    A call to a collaborator is recorded with the answer it gave. *)

Inductive event : Type :=
| Print (text : string)
| PrintErr (text : string)
| NewCredential
| NewClient (subscription_id : string)
| SubprocessRun (argv : list string) (answer : result CompletedProcess)
| OpenFile (path : string) (answer : result string)
| BeginCreateOrUpdate (resource_group deployment_name : string)
    (deployment : Deployment) (answer : result LROPoller)
| PollerResult (answer : result DeploymentExtended).

(** *** The collaborators the script calls *)

Record World : Type :=
  { environ : string -> option string;
    subprocess_run : list string -> result CompletedProcess;
    read_text : string -> result string;
    deployments_begin_create_or_update :
      string -> string -> Deployment -> result LROPoller;
    (** [json.loads] *)
    json_loads : string -> result value;
    (** [str(x)], as an f-string renders a replacement field *)
    str : value -> string }.

(** *** Running code with a trace *)

Definition io (A : Type) : Type := list event * result A.

Definition ret {A} (a : A) : io A := ([], Ok a).

Definition io_bind {A B} (m : io A) (f : A -> io B) : io B :=
  match snd m with
  | Ok a => ((fst m ++ fst (f a))%list, snd (f a))
  | Raise e => (fst m, Raise e)
  | Exit c => (fst m, Exit c)
  end.

Definition lift {A} (r : result A) : io A := ([], r).
Definition emit (ev : event) : io unit := ([ev], Ok tt).
(** A call to a collaborator: the event, then the answer. *)
Definition call {A} (ev : result A -> event) (answer : result A) : io A :=
  ([ev answer], answer).
Definition print (text : string) : io unit := emit (Print text).
Definition print_stderr (text : string) : io unit := emit (PrintErr text).
Definition sys_exit {A} (code : Z) : io A := ([], Exit code).

Declare Scope io_scope.
Delimit Scope io_scope with io.
Notation "x <- m ;; k" := (io_bind m (fun x => k))
  (at level 61, m at next level, right associativity) : io_scope.
Notation "m ;; k" := (io_bind m (fun _ => k))
  (at level 61, right associativity) : io_scope.

(** [for x in xs: body(x)] *)
Fixpoint for_each {A} (xs : list A) (body : A -> io unit) : io unit :=
  match xs with
  | [] => ret tt
  | x :: rest => (body x ;; for_each rest body)%io
  end.

(** What the terminal shows on stdout: [print] ends each text with a
    line feed. *)
Fixpoint stdout_text (t : list event) : string :=
  match t with
  | [] => ""
  | Print text :: t' => text ++ nl ++ stdout_text t'
  | _ :: t' => stdout_text t'
  end.

Fixpoint stderr_text (t : list event) : string :=
  match t with
  | [] => ""
  | PrintErr text :: t' => text ++ nl ++ stderr_text t'
  | _ :: t' => stderr_text t'
  end.

(** The status the process ends with: an uncaught exception ends the
    interpreter with status 1. *)
Definition exit_status {A} (r : result A) : Z :=
  match r with
  | Ok _ => 0
  | Raise _ => 1
  | Exit code => code
  end.

(** The deployments submitted during a run. *)
Fixpoint submissions (t : list event) : list (string * string * Deployment) :=
  match t with
  | [] => []
  | BeginCreateOrUpdate rg name d _ :: t' => (rg, name, d) :: submissions t'
  | _ :: t' => submissions t'
  end.

(** Events that reach the remote control plane or prepare to. *)
Definition remote_event (ev : event) : bool :=
  match ev with
  | NewCredential | NewClient _ | BeginCreateOrUpdate _ _ _ _ | PollerResult _ => true
  | _ => false
  end.

(** The line shown for one output entry that is a dict: its key, then
    its ["value"] field, or [N/A] when it has none. *)
Definition output_line (w : World) (kv : string * value) : string :=
  "  " ++ fst kv ++ ": "
  ++ str w (match snd kv with
            | VDict d =>
                match dict_get "value" d with
                | Some x => x
                | None => VStr "N/A"
                end
            | _ => VNone
            end).

(** [entry["value"]] of a parameters entry that has the field. *)
Definition entry_value (entry : value) : value :=
  match subscript entry "value" with
  | Ok v => v
  | _ => VNone
  end.


(** The command line of the build, line 27. *)
Definition build_argv (bicep_path : string) : list string :=
  ["az"; "bicep"; "build"; "--file"; bicep_path; "--stdout"].

(** *** The script *)

(** The module-level names read from the environment. *)
Record Globals : Type :=
  { RESOURCE_GROUP : string;
    SUBSCRIPTION_ID : string;
    BICEP_FILE : string;
    PARAMETERS_FILE : string }.

Section Script.
Variable w : World.

(** [os.getenv(name, default)] *)
Definition getenv_default (name default : string) : string :=
  match environ w name with
  | Some v => v
  | None => default
  end.

(** [os.getenv(name)]: [None] when the variable is unset. *)
Definition getenv (name : string) : value :=
  match environ w name with
  | Some v => VStr v
  | None => VNone
  end.

(** Lines 13-21: the configuration and its check. *)
Definition configuration : io Globals :=
  let resource_group := getenv_default "AZURE_RESOURCE_GROUP" "rg-agentic-waf" in
  let subscription_id := getenv "AZURE_SUBSCRIPTION_ID" in
  let bicep_file := getenv_default "BICEP_TEMPLATE_FILE" "infra/bicep/main.bicep" in
  let parameters_file :=
    getenv_default "BICEP_PARAMETERS_FILE" "infra/bicep/main.parameters.json" in
  if negb (truthy subscription_id) then
    (print_stderr "Error: AZURE_SUBSCRIPTION_ID environment variable is required" ;;
     print_stderr "Set it with: export AZURE_SUBSCRIPTION_ID=<your-subscription-id>" ;;
     sys_exit 1)%io
  else
    match subscription_id with
    | VStr s =>
        ret {| RESOURCE_GROUP := resource_group; SUBSCRIPTION_ID := s;
               BICEP_FILE := bicep_file; PARAMETERS_FILE := parameters_file |}
    | _ => lift (Raise TypeError)
    end.

Definition compile_bicep (bicep_path : string) : io value :=
  (print ("Compiling " ++ bicep_path ++ "...") ;;
   let argv := build_argv bicep_path in
   result <- call (SubprocessRun argv) (subprocess_run w argv) ;;
   (if negb (returncode result =? 0) then
      print_stderr ("Error compiling Bicep: " ++ stderr result) ;;
      sys_exit 1
    else ret tt) ;;
   lift (json_loads w (stdout result)))%io.

(** The comprehension of line 41 on the parsed document. *)
Definition extract_values (params : value) : result dict :=
  (entries <- subscript params "parameters" ;;
   its <- items entries ;;
   dict_comprehension (fun k v => subscript v "value") its [])%py.

Definition load_parameters (param_file : string) : io dict :=
  (text <- call (OpenFile param_file) (read_text w param_file) ;;
   params <- lift (json_loads w text) ;;
   lift (extract_values params))%io.

(** The comprehension of line 61. *)
Definition wrap_values (parameters : dict) : result dict :=
  dict_comprehension (fun k v => Ok (VDict [("value", v)])) parameters [].

(** Line 82, the body of the loop. *)
Definition print_output (kv : string * value) : io unit :=
  (shown <- lift (get_default (snd kv) "value" (VStr "N/A")) ;;
   print ("  " ++ fst kv ++ ": " ++ str w shown))%io.

(** Lines 79-82. *)
Definition print_outputs (outs : value) : io unit :=
  if truthy outs then
    (print (nl ++ "Outputs:") ;;
     its <- lift (items outs) ;;
     for_each its print_output)%io
  else ret tt.

Definition main (g : Globals) : io unit :=
  (print "Initializing Azure deployment..." ;;
   emit NewCredential ;;
   emit (NewClient (SUBSCRIPTION_ID g)) ;;
   template <- compile_bicep (BICEP_FILE g) ;;
   parameters <- load_parameters (PARAMETERS_FILE g) ;;
   let deployment_name := "infrastructure-deployment" in
   wrapped <- lift (wrap_values parameters) ;;
   let deployment_properties :=
     {| mode := INCREMENTAL; template := template; parameters := wrapped |} in
   let deployment := {| properties := deployment_properties |} in
   print ("Starting deployment '" ++ deployment_name
          ++ "' to resource group '" ++ RESOURCE_GROUP g ++ "'...") ;;
   operation <- call (BeginCreateOrUpdate (RESOURCE_GROUP g) deployment_name deployment)
                     (deployments_begin_create_or_update w
                        (RESOURCE_GROUP g) deployment_name deployment) ;;
   print "Deployment started. Waiting for completion..." ;;
   result <- call PollerResult (poll operation) ;;
   print (nl ++ "✓ Deployment completed: " ++ provisioning_state result) ;;
   print_outputs (outputs result))%io.

(** Running the file as a script: the module body, then [main()]. *)
Definition script : io unit :=
  (g <- configuration ;; main g)%io.

End Script.

End Deploy.

(** ** Sample inputs *)

Module Samples.
Import Py Performance Deploy.

(** 0.009, the binary64 number nearest to 9/1000 *)
Definition nine_ms : float := S754_finite false 5188146770730811 (-59).
Definition zero : float := S754_zero false.
Definition one : float := Eval vm_compute in float_of_int 1.
Definition two : float := Eval vm_compute in float_of_int 2.

Definition clock_at (x : float) : Clock := {| time_time := x |}.

(** [{"parameters": {"a": {"value": 1}, "b": {"value": "x"}}}] *)
Definition document : value :=
  VDict [("parameters",
          VDict [("a", VDict [("value", VInt 1)]);
                 ("b", VDict [("value", VStr "x")])])].

(** A parameters file as ARM writes it, with fields next to ["value"]. *)
Definition document_with_metadata : value :=
  VDict [("contentVersion", VStr "1.0.0.0");
         ("parameters",
          VDict [("location", VDict [("value", VStr "westeurope");
                                     ("metadata", VStr "region")]);
                 ("replicas", VDict [("type", VStr "int"); ("value", VInt 3)])])].

Definition succeeded : DeploymentExtended :=
  {| provisioning_state := "Succeeded";
     outputs := VDict [("url", VDict [("value", VStr "http://example")])] |}.

(** [str] on the values of the samples: [None], booleans, integers and
    strings; floats and containers do not occur in them. *)
Definition str_sample (v : value) : string :=
  match v with
  | VNone => "None"
  | VBool b => if b then "True" else "False"
  | VInt n => NilZero.string_of_int (Z.to_int n)
  | VStr s => s
  | _ => "<object>"
  end.

(** A world with [subscription] in [AZURE_SUBSCRIPTION_ID], where the
    build ends with [status] and the parameters file holds [doc]. *)
Definition world (subscription : option string) (status : Z) (doc : value)
    (remote : DeploymentExtended) : World :=
  {| environ := fun name =>
       if String.eqb name "AZURE_SUBSCRIPTION_ID" then subscription else None;
     subprocess_run := fun _ =>
       Ok {| returncode := status; stdout := "{}"; stderr := "main.bicep(3,1): error" |};
     read_text := fun _ => Ok "parameters";
     deployments_begin_create_or_update := fun _ _ _ => Ok {| poll := Ok remote |};
     json_loads := fun text =>
       if String.eqb text "parameters" then Ok doc else Ok (VDict []);
     str := str_sample |}.

End Samples.

(** ** Sample worlds with failing collaborators *)

Module Cases.
Import Py Deploy.

Fixpoint lookup (name : string) (env : list (string * string)) : option string :=
  match env with
  | [] => None
  | (n, v) :: env' => if String.eqb name n then Some v else lookup name env'
  end.

(** A world with the environment [env], where the build answers [build],
    reading any file answers [file], the text ["parameters"] parses to
    [doc] and any other text to [{}], and the submission answers
    [submit]. *)
Definition world_of (env : list (string * string)) (build : result CompletedProcess)
    (file : result string) (doc : result value) (submit : result LROPoller) : World :=
  {| environ := fun name => lookup name env;
     subprocess_run := fun _ => build;
     read_text := fun _ => file;
     deployments_begin_create_or_update := fun _ _ _ => submit;
     json_loads := fun text =>
       if String.eqb text "parameters" then doc else Ok (VDict []);
     str := Samples.str_sample |}.

Definition subscribed : list (string * string) :=
  [("AZURE_SUBSCRIPTION_ID", "0000-1111")].

(** A build that ends with status 0 and prints [{}], with a warning on
    its stderr. *)
Definition built : result CompletedProcess :=
  Ok {| returncode := 0; stdout := "{}"; stderr := "warning: unused parameter" |}.

Definition answered (remote : DeploymentExtended) : result LROPoller :=
  Ok {| poll := Ok remote |}.

(** A result without outputs. *)
Definition bare : DeploymentExtended :=
  {| provisioning_state := "Succeeded"; outputs := VNone |}.

(** Everything answers. *)
Definition happy : World :=
  world_of subscribed built (Ok "parameters") (Ok Samples.document)
    (answered Samples.succeeded).

(** The parameters file is missing. *)
Definition unreadable : World :=
  world_of subscribed built (Raise (OSError "infra/bicep/main.parameters.json"))
    (Ok Samples.document) (answered Samples.succeeded).

(** The parameters file holds [{"a": {"value": 1}}], without the
    ["parameters"] level. *)
Definition unwrapped_document : World :=
  world_of subscribed built (Ok "parameters")
    (Ok (VDict [("a", VDict [("value", VInt 1)])])) (answered Samples.succeeded).

(** One entry of the parameters file has no ["value"]. *)
Definition valueless_entry : World :=
  world_of subscribed built (Ok "parameters")
    (Ok (VDict [("parameters",
                 VDict [("a", VDict [("value", VInt 1)]);
                        ("b", VDict [("reference", VStr "vault")])])]))
    (answered Samples.succeeded).

(** The control plane refuses the request. *)
Definition refused : World :=
  world_of subscribed built (Ok "parameters") (Ok Samples.document)
    (Raise HttpResponseError).

(** The remote operation ends in an error. *)
Definition broken_operation : World :=
  world_of subscribed built (Ok "parameters") (Ok Samples.document)
    (Ok {| poll := Raise HttpResponseError |}).

(** The deployment declares no outputs. *)
Definition without_outputs : World :=
  world_of subscribed built (Ok "parameters") (Ok Samples.document) (answered bare).

(** The parameters file holds entries with fields next to ["value"]. *)
Definition with_metadata : World :=
  world_of subscribed built (Ok "parameters") (Ok Samples.document_with_metadata)
    (answered Samples.succeeded).

(** 0.2 and 1.2345, the binary64 numbers nearest to them *)
Definition fifth : float := S754_finite false 7205759403792794 (-55).
Definition later : float := S754_finite false 5559693739988877 (-52).

(** An output that is a plain string instead of a dict. *)
Definition plain_output : World :=
  world_of subscribed built (Ok "parameters") (Ok Samples.document)
    (answered {| provisioning_state := "Succeeded";
                 outputs := VDict [("url", VStr "http://example")] |}).

End Cases.

(** ** Collaborators that answer *)

Module Hosts.
Import Py Deploy.

(** A collaborator returns or raises; it does not end the interpreter. *)
Definition answers {A} (r : result A) : Prop := forall code, r <> Exit code.

Definition collaborators_answer (w : World) : Prop :=
  (forall argv, answers (subprocess_run w argv)) /\
  (forall path, answers (read_text w path)) /\
  (forall text, answers (json_loads w text)) /\
  (forall rg name d, answers (deployments_begin_create_or_update w rg name d)) /\
  (forall rg name d op,
     deployments_begin_create_or_update w rg name d = Ok op -> answers (poll op)).

End Hosts.

(** ** Truncation of floats *)

Module PyFacts.
Import Py.

Lemma Qtrunc_comp (p q : Q) : (p == q)%Q -> Qtrunc p = Qtrunc q.
Proof.
  intros E. unfold Qtrunc.
  assert (Hb : Qle_bool 0 p = Qle_bool 0 q) by (rewrite E; reflexivity).
  assert (Hf : Qfloor p = Qfloor q) by (rewrite E; reflexivity).
  assert (Hc : Qceiling p = Qceiling q) by (rewrite E; reflexivity).
  rewrite Hb, Hf, Hc. reflexivity.
Qed.

Lemma Qtrunc_Z (z : Z) : Qtrunc (inject_Z z) = z.
Proof.
  unfold Qtrunc. destruct (Qle_bool 0 (inject_Z z)).
  - apply Qfloor_Z.
  - apply Qceiling_Z.
Qed.

(** Truncation toward zero is the quotient that rounds toward zero. *)
Lemma Qtrunc_quot (z : Z) (d : positive) : Qtrunc (z # d) = z ÷ Zpos d.
Proof.
  unfold Qtrunc, Qle_bool, Qceiling, Qfloor, Qopp. simpl.
  rewrite Z.mul_1_r.
  destruct (Z.leb_spec 0 z) as [Hz | Hz].
  - symmetry. apply Z.quot_div_nonneg; lia.
  - rewrite <- (Z.opp_involutive z) at 2.
    rewrite Z.quot_opp_l by lia.
    rewrite Z.quot_div_nonneg by lia. reflexivity.
Qed.

Lemma pow2_pos (p : positive) : Zpos (2 ^ p)%positive = 2 ^ Zpos p.
Proof. apply Pos2Z.inj_pow. Qed.

Lemma Qpower2_pos (p : positive) : ((2 # 1) ^ Zpos p == inject_Z (2 ^ Zpos p))%Q.
Proof.
  rewrite Zpower_Qpower by lia. reflexivity.
Qed.

Lemma Qpower2_neg (p : positive) : ((2 # 1) ^ Zneg p == 1 # (2 ^ p)%positive)%Q.
Proof.
  change (Zneg p) with (- Zpos p).
  rewrite Qpower_opp, Qpower2_pos, <- pow2_pos.
  reflexivity.
Qed.

(** The rational value of a finite float, as a single fraction. *)
Lemma float_to_Q_finite (s : bool) (m : positive) (e : Z) :
  exists q, float_to_Q (S754_finite s m e) = Some q /\
    (q == match e with
          | Zneg p => cond_Zopp s (Zpos m) # (2 ^ p)%positive
          | _ => inject_Z (cond_Zopp s (Zpos m) * 2 ^ e)
          end)%Q.
Proof.
  eexists. split; [reflexivity|].
  destruct e as [|p|p].
  - simpl. rewrite Z.mul_1_r. ring.
  - rewrite Qpower2_pos, <- inject_Z_mult. reflexivity.
  - rewrite Qpower2_neg. unfold Qeq, Qmult, inject_Z. simpl. lia.
Qed.

Lemma cond_Zopp_mul (s : bool) (a b : Z) : cond_Zopp s a * b = cond_Zopp s (a * b).
Proof. destruct s; simpl; lia. Qed.

Lemma cond_Zopp_quot (s : bool) (a b : Z) :
  b <> 0 -> cond_Zopp s a ÷ b = cond_Zopp s (a ÷ b).
Proof. intros Hb. destruct s; simpl; [apply Z.quot_opp_l; exact Hb | reflexivity]. Qed.

(** [int] of a finite float is the truncation toward zero of its value. *)
Lemma int_of_float_trunc (x : float) (q : Q) :
  float_to_Q x = Some q -> int_of_float x = Ok (Qtrunc q).
Proof.
  destruct x as [s | s | | s m e]; simpl; try discriminate.
  - intros [= <-]. reflexivity.
  - intros Hq.
    destruct (float_to_Q_finite s m e) as (q' & Hq' & E).
    simpl in Hq'. rewrite Hq in Hq'. injection Hq' as <-.
    rewrite (Qtrunc_comp _ _ E). f_equal.
    destruct e as [|p|p].
    + rewrite Qtrunc_Z. simpl. rewrite Z.mul_1_r. reflexivity.
    + rewrite Qtrunc_Z, cond_Zopp_mul, Z.shiftl_mul_pow2 by lia. reflexivity.
    + rewrite Qtrunc_quot, cond_Zopp_quot by lia.
      change (Z.shiftl (Zpos m) (Zneg p)) with (Z.shiftr (Zpos m) (Zpos p)).
      rewrite Z.shiftr_div_pow2, pow2_pos by lia.
      rewrite Z.quot_div_nonneg by lia. reflexivity.
Qed.

Lemma float_to_Q_is_finite (x : float) :
  is_finite x = true <-> exists q, float_to_Q x = Some q.
Proof.
  destruct x; simpl; split; intros H; try reflexivity; try discriminate;
    try (eexists; reflexivity); destruct H as [q H]; discriminate.
Qed.

Lemma int_of_float_finite (x : float) (n : Z) :
  int_of_float x = Ok n -> is_finite x = true.
Proof. destruct x; simpl; intros H; try reflexivity; discriminate. Qed.

(** *** Dict comprehensions over distinct keys *)

Lemma dict_set_fresh (k : string) (v : value) (d : dict) :
  ~ In k (keys d) -> dict_set k v d = (d ++ [(k, v)])%list.
Proof.
  induction d as [| [k' v'] d IH]; simpl; intros Hk.
  - reflexivity.
  - destruct (String.eqb_spec k k') as [-> | Hne].
    + exfalso. apply Hk. left. reflexivity.
    + rewrite IH; [reflexivity|]. intros Hin. apply Hk. right. exact Hin.
Qed.

Lemma keys_app (d1 d2 : dict) : keys (d1 ++ d2)%list = (keys d1 ++ keys d2)%list.
Proof. apply map_app. Qed.

(** Over distinct keys, none of them in [acc], a comprehension whose
    body succeeds with [g k v] appends the entries [(k, g k v)] in
    order. *)
Lemma dict_comprehension_map (f : string -> value -> result value)
    (g : string -> value -> value) (its : list (string * value)) :
  forall acc : dict,
    NoDup (keys its) ->
    (forall k, In k (keys its) -> ~ In k (keys acc)) ->
    (forall k v, In (k, v) its -> f k v = Ok (g k v)) ->
    dict_comprehension f its acc
      = Ok (acc ++ map (fun kv => (fst kv, g (fst kv) (snd kv))) its)%list.
Proof.
  induction its as [| [k v] its IH]; intros acc Hnd Hfresh Hf; simpl.
  - rewrite app_nil_r. reflexivity.
  - rewrite (Hf k v) by (left; reflexivity).
    simpl in Hnd. inversion Hnd as [| ? ? Hk Hnd']; subst.
    rewrite dict_set_fresh by (apply Hfresh; left; reflexivity).
    rewrite IH.
    + rewrite <- app_assoc. reflexivity.
    + exact Hnd'.
    + intros k' Hk'. rewrite keys_app. simpl. intros Hin.
      apply in_app_or in Hin as [Hin | [<- | []]].
      * apply (Hfresh k'); [right; exact Hk' | exact Hin].
      * apply Hk. exact Hk'.
    + intros k' v' Hin. apply Hf. right. exact Hin.
Qed.

Lemma dict_get_map (g : string -> value -> value) (k : string) (d : dict) :
  dict_get k (map (fun kv => (fst kv, g (fst kv) (snd kv))) d)
    = option_map (g k) (dict_get k d).
Proof.
  induction d as [| [k' v'] d IH]; simpl.
  - reflexivity.
  - destruct (String.eqb_spec k k') as [-> | _]; [reflexivity | exact IH].
Qed.

Lemma dict_get_In (k : string) (v : value) (d : dict) :
  dict_get k d = Some v -> In (k, v) d.
Proof.
  induction d as [| [k' v'] d IH]; simpl; [discriminate|].
  destruct (String.eqb_spec k k') as [-> | _].
  - intros [= ->]. left. reflexivity.
  - intros H. right. apply IH, H.
Qed.

(** *** Substrings *)

Lemma append_empty_r (s : string) : s ++ "" = s.
Proof. induction s as [| c s IH]; simpl; [reflexivity | rewrite IH; reflexivity]. Qed.

Lemma append_assoc (a b c : string) : (a ++ b) ++ c = a ++ b ++ c.
Proof. induction a as [| x a IH]; simpl; [reflexivity | rewrite IH; reflexivity]. Qed.

Lemma substring_of_refl (s : string) : substring_of s s.
Proof. exists "", "". simpl. rewrite append_empty_r. reflexivity. Qed.

Lemma substring_of_trans (a b c : string) :
  substring_of a b -> substring_of b c -> substring_of a c.
Proof.
  intros (p1 & q1 & ->) (p2 & q2 & ->).
  exists (p2 ++ p1), (q1 ++ q2).
  rewrite !append_assoc. reflexivity.
Qed.

Lemma substring_of_app_l (sub a b : string) :
  substring_of sub a -> substring_of sub (a ++ b).
Proof.
  intros (p & q & ->). exists p, (q ++ b). rewrite !append_assoc. reflexivity.
Qed.

Lemma substring_of_app_r (sub a b : string) :
  substring_of sub b -> substring_of sub (a ++ b).
Proof.
  intros (p & q & ->). exists (a ++ p), q. rewrite !append_assoc. reflexivity.
Qed.

End PyFacts.

(** ** Traces of the deployment driver *)

Module DeployFacts.
Import Py Deploy PyFacts.

Lemma submissions_app (t1 t2 : list event) :
  submissions (t1 ++ t2) = (submissions t1 ++ submissions t2)%list.
Proof.
  induction t1 as [| ev t1 IH]; simpl; [reflexivity|].
  destruct ev; simpl; rewrite ?IH; reflexivity.
Qed.

Lemma io_bind_Ok {A B} (t : list event) (a : A) (f : A -> io B) :
  io_bind (t, Ok a) f = ((t ++ fst (f a))%list, snd (f a)).
Proof. reflexivity. Qed.


Lemma stderr_text_In (text : string) (t : list event) :
  In (PrintErr text) t -> substring_of text (stderr_text t).
Proof.
  induction t as [| ev t IH]; simpl; [intros []|].
  intros [-> | Hin].
  - apply substring_of_app_l, substring_of_refl.
  - destruct ev; try (apply IH, Hin).
    apply substring_of_app_r, (substring_of_app_r text nl), IH, Hin.
Qed.

Lemma print_output_dict (w : World) (k : string) (d : dict) :
  print_output w (k, VDict d) = ([Print (output_line w (k, VDict d))], Ok tt).
Proof.
  unfold print_output, output_line, io_bind. simpl.
  destruct (dict_get "value" d); reflexivity.
Qed.

Lemma print_output_prints (w : World) (kv : string * value) (ev : event) :
  In ev (fst (print_output w kv)) -> exists text, ev = Print text.
Proof.
  unfold print_output, io_bind. simpl.
  destruct (get_default (snd kv) "value" (VStr "N/A")); simpl.
  - intros [<- | []]. eexists. reflexivity.
  - intros [].
  - intros [].
Qed.


(** The trace of a sequence: the first part, then the second if the
    first returns. *)
Lemma io_bind_In {A B} (m : io A) (f : A -> io B) (ev : event) :
  In ev (fst (io_bind m f)) ->
  In ev (fst m) \/ exists a, snd m = Ok a /\ In ev (fst (f a)).
Proof.
  unfold io_bind. destruct (snd m) as [a | e | c]; simpl; auto.
  intros Hin. apply in_app_or in Hin as [Hin | Hin]; [left; exact Hin|].
  right. exists a. split; [reflexivity | exact Hin].
Qed.

(** The report loop only prints. *)
Lemma for_each_outputs_prints (w : World) (its : list (string * value)) (ev : event) :
  In ev (fst (for_each its (print_output w))) -> exists text, ev = Print text.
Proof.
  induction its as [| kv its IH]; cbn [for_each]; [intros []|].
  intros Hin. apply io_bind_In in Hin as [Hin | (_ & _ & Hin)].
  - apply (print_output_prints w kv), Hin.
  - apply IH, Hin.
Qed.

Lemma print_outputs_prints (w : World) (outs : value) (ev : event) :
  In ev (fst (print_outputs w outs)) -> exists text, ev = Print text.
Proof.
  unfold print_outputs. destruct (truthy outs); [|intros []].
  intros Hin. apply io_bind_In in Hin as [[<- | []] | (_ & _ & Hin)].
  - eexists. reflexivity.
  - apply io_bind_In in Hin as [[] | (its & _ & Hin)].
    apply (for_each_outputs_prints w its), Hin.
Qed.


Lemma io_bind_eq {A B} (m : io A) (f : A -> io B) (a : A) :
  snd m = Ok a -> io_bind m f = ((fst m ++ fst (f a))%list, snd (f a)).
Proof. unfold io_bind. intros ->. reflexivity. Qed.

Lemma io_bind_Ok_inv {A B} (m : io A) (f : A -> io B) (b : B) :
  snd (io_bind m f) = Ok b -> exists a, snd m = Ok a /\ snd (f a) = Ok b.
Proof.
  unfold io_bind. destruct (snd m) as [a | e | c]; simpl; try discriminate.
  intros H. exists a. split; [reflexivity | exact H].
Qed.

(** *** The parts of the script, one by one *)

(** Splitting membership in the trace of a sequence, part by part. *)
Ltac in_leaf H :=
  lazymatch type of H with
  | In _ (fst (print _)) => destruct H as [H | []]; try discriminate H
  | In _ (fst (print_stderr _)) => destruct H as [H | []]; try discriminate H
  | In _ (fst (emit _)) => destruct H as [H | []]; try discriminate H
  | In _ (fst (call _ _)) => destruct H as [H | []]; try discriminate H
  | In _ (fst (lift _)) => destruct H
  | In _ (fst (ret _)) => destruct H
  | In _ (fst (sys_exit _)) => destruct H
  | _ => idtac
  end.

Ltac in_trace H :=
  cbv beta zeta in H;
  lazymatch type of H with
  | In _ (fst (io_bind _ _)) =>
      let a := fresh "a" in
      let Ha := fresh "Ha" in
      apply io_bind_In in H as [H | (a & Ha & H)]; [in_leaf H | in_trace H]
  | _ => in_leaf H
  end.

Lemma configuration_unset (w : World) :
  truthy (getenv w "AZURE_SUBSCRIPTION_ID") = false ->
  configuration w
  = ([PrintErr "Error: AZURE_SUBSCRIPTION_ID environment variable is required";
      PrintErr "Set it with: export AZURE_SUBSCRIPTION_ID=<your-subscription-id>"],
     Exit 1).
Proof. unfold configuration. intros ->. reflexivity. Qed.

Lemma configuration_Ok (w : World) (g : Globals) :
  snd (configuration w) = Ok g ->
  configuration w = ([], Ok g) /\
  environ w "AZURE_SUBSCRIPTION_ID" = Some (SUBSCRIPTION_ID g) /\
  SUBSCRIPTION_ID g <> "".
Proof.
  unfold configuration, getenv.
  destruct (environ w "AZURE_SUBSCRIPTION_ID") as [sub |]; cbn [truthy negb].
  - destruct (String.eqb_spec sub "") as [-> | Hne]; cbn [negb]; [discriminate|].
    intros [= <-]. repeat split. exact Hne.
  - discriminate.
Qed.

Lemma configuration_events (w : World) (ev : event) :
  In ev (fst (configuration w)) -> exists text, ev = PrintErr text.
Proof.
  destruct (truthy (getenv w "AZURE_SUBSCRIPTION_ID")) eqn:Ht.
  - unfold configuration. rewrite Ht. cbn [negb].
    destruct (getenv w "AZURE_SUBSCRIPTION_ID"); intros [].
  - rewrite (configuration_unset w Ht).
    intros [<- | [<- | []]]; eexists; reflexivity.
Qed.

Lemma compile_bicep_eq (w : World) (path : string) :
  compile_bicep w path
  = let answer := subprocess_run w (build_argv path) in
    ((Print ("Compiling " ++ path ++ "...")
      :: SubprocessRun (build_argv path) answer
      :: match answer with
         | Ok cp =>
             if returncode cp =? 0 then []
             else [PrintErr ("Error compiling Bicep: " ++ stderr cp)]
         | _ => []
         end)%list,
     match answer with
     | Ok cp => if returncode cp =? 0 then json_loads w (stdout cp) else Exit 1
     | Raise e => Raise e
     | Exit c => Exit c
     end).
Proof.
  unfold compile_bicep. cbv zeta.
  destruct (subprocess_run w _) as [cp | e | c]; [|reflexivity|reflexivity].
  unfold print, call. rewrite !io_bind_Ok.
  destruct (returncode cp =? 0); reflexivity.
Qed.

Lemma load_parameters_eq (w : World) (path : string) :
  load_parameters w path
  = ([OpenFile path (read_text w path)],
     (text <- read_text w path ;;
      params <- json_loads w text ;;
      extract_values params)%py).
Proof.
  unfold load_parameters, call, lift.
  destruct (read_text w path) as [text | e | c]; [|reflexivity|reflexivity].
  rewrite io_bind_Ok. cbn [fst snd bind].
  destruct (json_loads w text); reflexivity.
Qed.

(** The request of line 63, from the template and the flat parameters. *)
Lemma script_submission_inv (w : World) (rg name : string) (d : Deployment)
    (ans : result LROPoller) :
  In (BeginCreateOrUpdate rg name d ans) (fst (script w)) ->
  exists g tpl flat wrapped,
    snd (configuration w) = Ok g /\
    snd (compile_bicep w (BICEP_FILE g)) = Ok tpl /\
    snd (load_parameters w (PARAMETERS_FILE g)) = Ok flat /\
    wrap_values flat = Ok wrapped /\
    rg = RESOURCE_GROUP g /\
    name = "infrastructure-deployment" /\
    d = {| properties :=
             {| mode := INCREMENTAL; template := tpl; parameters := wrapped |} |}.
Proof.
  intros H. unfold script in H. in_trace H.
  - apply configuration_events in H as [text H]. discriminate H.
  - rename a into g. unfold main in H. in_trace H.
    + rewrite compile_bicep_eq in H. cbv zeta in H. cbn [fst In] in H.
      destruct H as [H | [H | H]]; try discriminate H.
      destruct (subprocess_run w _) as [cp | |]; try contradiction.
      destruct (returncode cp =? 0); [contradiction|].
      destruct H as [H | []]. discriminate H.
    + rewrite load_parameters_eq in H. destruct H as [H | []]. discriminate H.
    + injection H as <- <- <- _.
      do 4 eexists. repeat split; first [eassumption | reflexivity].
    + apply print_outputs_prints in H as [text H]. discriminate H.
Qed.

(** A run that gets through [m] ends the way the rest ends. *)
Lemma io_bind_ends {A B} (m : io A) (f : A -> io B) (a : A)
    (suffix : list event) (r : result B) :
  snd m = Ok a ->
  (exists pre, f a = ((pre ++ suffix)%list, r)) ->
  exists pre, io_bind m f = ((pre ++ suffix)%list, r).
Proof.
  intros Ha [pre Hf]. exists (fst m ++ pre)%list.
  rewrite (io_bind_eq m f a Ha), Hf. cbn [fst snd].
  rewrite app_assoc. reflexivity.
Qed.

Lemma submissions_nil (t : list event) :
  (forall rg name d ans, ~ In (BeginCreateOrUpdate rg name d ans) t) ->
  submissions t = [].
Proof.
  induction t as [| ev t IH]; intros Hno; [reflexivity|].
  destruct ev; simpl;
    try (apply IH; intros rg name d ans Hin; apply (Hno rg name d ans); right; exact Hin).
  exfalso. eapply Hno. left. reflexivity.
Qed.

Lemma submissions_In (t : list event) (rg name : string) (d : Deployment) :
  In (rg, name, d) (submissions t) ->
  exists ans, In (BeginCreateOrUpdate rg name d ans) t.
Proof.
  induction t as [| ev t IH]; simpl; [intros []|].
  destruct ev; simpl; intros Hin;
    try (destruct (IH Hin) as [ans Hans]; exists ans; right; exact Hans).
  destruct Hin as [[= <- <- <-] | Hin].
  - eexists. left. reflexivity.
  - destruct (IH Hin) as [ans Hans]. exists ans. right. exact Hans.
Qed.

(** A run in which the build was launched and answered with a non-zero
    status stops right after relaying the diagnostics. *)
Lemma script_build_failure (w : World) (argv : list string) (cp : CompletedProcess) :
  In (SubprocessRun argv (Ok cp)) (fst (script w)) ->
  returncode cp <> 0 ->
  exists g,
    snd (configuration w) = Ok g /\
    argv = build_argv (BICEP_FILE g) /\
    snd (compile_bicep w (BICEP_FILE g)) = Exit 1 /\
    exists pre,
      script w
      = ((pre ++ [SubprocessRun argv (Ok cp);
                  PrintErr ("Error compiling Bicep: " ++ stderr cp)])%list,
         Exit 1).
Proof.
  intros H Hrc. unfold script in H. in_trace H.
  - apply configuration_events in H as [text H]. discriminate H.
  - rename a into g. unfold main in H. in_trace H.
    + rewrite compile_bicep_eq in H. cbv zeta in H. cbn [fst In] in H.
      destruct H as [H | [H | H]]; try discriminate H.
      * injection H as <- Hrun.
        assert (Hc : compile_bicep w (BICEP_FILE g)
                     = ([Print ("Compiling " ++ BICEP_FILE g ++ "...");
                         SubprocessRun (build_argv (BICEP_FILE g)) (Ok cp);
                         PrintErr ("Error compiling Bicep: " ++ stderr cp)],
                        Exit 1)).
        { rewrite compile_bicep_eq. cbv zeta. rewrite Hrun.
          destruct (Z.eqb_spec (returncode cp) 0) as [E | _]; [contradiction|].
          reflexivity. }
        exists g. split; [exact Ha|]. split; [reflexivity|].
        split; [rewrite Hc; reflexivity|].
        unfold script. eapply io_bind_ends; [exact Ha|].
        unfold main. repeat (eapply io_bind_ends; [reflexivity|]).
        exists [Print ("Compiling " ++ BICEP_FILE g ++ "...")].
        unfold io_bind. rewrite Hc. reflexivity.
      * destruct (subprocess_run w _) as [cp' | |]; try contradiction.
        destruct (returncode cp' =? 0); [contradiction|].
        destruct H as [H | []]. discriminate H.
    + rewrite load_parameters_eq in H. destruct H as [H | []]. discriminate H.
    + apply print_outputs_prints in H as [text H]. discriminate H.
Qed.


Lemma io_bind_Ok_trace {A B} (m : io A) (f : A -> io B) (b : B) :
  snd (io_bind m f) = Ok b ->
  exists a, snd m = Ok a /\ snd (f a) = Ok b /\
    fst (io_bind m f) = (fst m ++ fst (f a))%list.
Proof.
  intros H. destruct (io_bind_Ok_inv m f b H) as (a & Ha & Hb).
  exists a. split; [exact Ha|]. split; [exact Hb|].
  rewrite (io_bind_eq m f a Ha). reflexivity.
Qed.

(** Splitting a run that returned into its parts, all of which returned. *)
Ltac ok_trace H :=
  cbv beta zeta in H; cbv beta zeta;
  lazymatch type of H with
  | snd (io_bind _ _) = Ok _ =>
      let a := fresh "a" in
      let Ha := fresh "Ha" in
      let E := fresh "E" in
      apply io_bind_Ok_trace in H as (a & Ha & H & E);
      rewrite E; clear E; ok_trace H
  | _ => idtac
  end.

Lemma no_submission_of_prints (t : list event) :
  (forall ev, In ev t -> exists text, ev = Print text \/ ev = PrintErr text) ->
  submissions t = [].
Proof.
  intros Hp. apply submissions_nil. intros rg name d ans Hin.
  destruct (Hp _ Hin) as [text [H | H]]; discriminate H.
Qed.

Lemma configuration_no_submission (w : World) :
  submissions (fst (configuration w)) = [].
Proof.
  apply no_submission_of_prints. intros ev Hin.
  apply configuration_events in Hin as [text ->]. exists text. right. reflexivity.
Qed.

Lemma compile_bicep_no_submission (w : World) (path : string) :
  submissions (fst (compile_bicep w path)) = [].
Proof.
  rewrite compile_bicep_eq. cbv zeta. cbn [fst submissions].
  destruct (subprocess_run w _) as [cp | |]; try reflexivity.
  destruct (returncode cp =? 0); reflexivity.
Qed.

Lemma load_parameters_no_submission (w : World) (path : string) :
  submissions (fst (load_parameters w path)) = [].
Proof. rewrite load_parameters_eq. reflexivity. Qed.

Lemma print_outputs_no_submission (w : World) (outs : value) :
  submissions (fst (print_outputs w outs)) = [].
Proof.
  apply no_submission_of_prints. intros ev Hin.
  apply print_outputs_prints in Hin as [text ->]. exists text. left. reflexivity.
Qed.

(** A run that returns has submitted one deployment. *)
Lemma script_success_submissions (w : World) :
  snd (script w) = Ok tt ->
  exists g tpl wrapped,
    submissions (fst (script w))
    = [(RESOURCE_GROUP g, "infrastructure-deployment",
        {| properties :=
             {| mode := INCREMENTAL; template := tpl; parameters := wrapped |} |})].
Proof.
  intros H. unfold script in H |- *. ok_trace H.
  unfold main in H |- *. ok_trace H.
  rewrite !submissions_app.
  rewrite configuration_no_submission, compile_bicep_no_submission,
    load_parameters_no_submission, print_outputs_no_submission.
  do 3 eexists. reflexivity.
Qed.

(** The parameters file the run opened is the configured one. *)
Lemma script_open_inv (w : World) (path text : string) :
  In (OpenFile path (Ok text)) (fst (script w)) ->
  exists g,
    snd (configuration w) = Ok g /\
    path = PARAMETERS_FILE g /\
    read_text w path = Ok text.
Proof.
  intros H. unfold script in H. in_trace H.
  - apply configuration_events in H as [msg H]. discriminate H.
  - rename a into g. unfold main in H. in_trace H.
    + rewrite compile_bicep_eq in H. cbv zeta in H. cbn [fst In] in H.
      destruct H as [H | [H | H]]; try discriminate H.
      destruct (subprocess_run w _) as [cp' | |]; try contradiction.
      destruct (returncode cp' =? 0); [contradiction|].
      destruct H as [H | []]. discriminate H.
    + rewrite load_parameters_eq in H. destruct H as [H | []].
      injection H as <- Hread.
      exists g. repeat split; assumption.
    + apply print_outputs_prints in H as [msg H]. discriminate H.
Qed.

(** *** The two comprehensions *)

Lemma extract_values_map (doc : value) (entries : dict) :
  subscript doc "parameters" = Ok (VDict entries) ->
  NoDup (keys entries) ->
  (forall k e, In (k, e) entries -> exists v, subscript e "value" = Ok v) ->
  extract_values doc = Ok (map (fun kv => (fst kv, entry_value (snd kv))) entries).
Proof.
  intros Hdoc Hnd Hval. unfold extract_values. rewrite Hdoc. cbn [bind items].
  rewrite (dict_comprehension_map _ (fun _ e => entry_value e) entries []).
  - reflexivity.
  - exact Hnd.
  - intros k _ [].
  - intros k e Hin. unfold entry_value.
    destruct (Hval k e Hin) as [v ->]. reflexivity.
Qed.

Lemma keys_map_values (g : string -> value -> value) (d : dict) :
  keys (map (fun kv => (fst kv, g (fst kv) (snd kv))) d) = keys d.
Proof.
  unfold keys. rewrite map_map. apply map_ext. reflexivity.
Qed.

Lemma wrap_values_map (flat : dict) :
  NoDup (keys flat) ->
  wrap_values flat = Ok (map (fun kv => (fst kv, VDict [("value", snd kv)])) flat).
Proof.
  intros Hnd. unfold wrap_values.
  rewrite (dict_comprehension_map _ (fun _ v => VDict [("value", v)]) flat []).
  - reflexivity.
  - exact Hnd.
  - intros k _ [].
  - reflexivity.
Qed.

(** *** The report *)


End DeployFacts.

(** ** More on the runs of the deployment driver *)

Module RunFacts.
Import Py Deploy PyFacts DeployFacts.

Lemma io_bind_Raise_eq {A B} (m : io A) (f : A -> io B) (e : exn) :
  snd m = Raise e -> io_bind m f = (fst m, Raise e).
Proof. unfold io_bind. intros ->. reflexivity. Qed.

(** The environment settles the globals. *)
Lemma configuration_globals (w : World) (g : Globals) :
  snd (configuration w) = Ok g ->
  RESOURCE_GROUP g = getenv_default w "AZURE_RESOURCE_GROUP" "rg-agentic-waf" /\
  BICEP_FILE g = getenv_default w "BICEP_TEMPLATE_FILE" "infra/bicep/main.bicep" /\
  PARAMETERS_FILE g
  = getenv_default w "BICEP_PARAMETERS_FILE" "infra/bicep/main.parameters.json".
Proof.
  unfold configuration, getenv.
  destruct (environ w "AZURE_SUBSCRIPTION_ID") as [sub |]; cbn [truthy negb].
  - destruct (String.eqb sub ""); cbn [negb]; [discriminate|].
    intros [= <-]. repeat split.
  - discriminate.
Qed.

(** What a returning build has done. *)
Lemma compile_bicep_Ok (w : World) (path : string) (tpl : value) :
  snd (compile_bicep w path) = Ok tpl ->
  exists cp,
    subprocess_run w (build_argv path) = Ok cp /\
    returncode cp = 0 /\
    json_loads w (stdout cp) = Ok tpl /\
    fst (compile_bicep w path)
    = [Print ("Compiling " ++ path ++ "..."); SubprocessRun (build_argv path) (Ok cp)].
Proof.
  rewrite compile_bicep_eq. cbv zeta. cbn [fst snd].
  destruct (subprocess_run w (build_argv path)) as [cp | e | c]; try discriminate.
  destruct (Z.eqb_spec (returncode cp) 0) as [Hz | Hnz]; [|discriminate].
  intros Hjson. exists cp. repeat split; assumption.
Qed.

(** Every event of a run, with what the run had obtained by then. *)
Lemma script_events (w : World) (ev : event) :
  In ev (fst (script w)) ->
  (exists text, ev = PrintErr text) \/
  (exists text, ev = Print text) \/
  ev = NewCredential \/
  exists g,
    snd (configuration w) = Ok g /\
    (ev = NewClient (SUBSCRIPTION_ID g) \/
     ev = SubprocessRun (build_argv (BICEP_FILE g))
            (subprocess_run w (build_argv (BICEP_FILE g))) \/
     exists tpl,
       snd (compile_bicep w (BICEP_FILE g)) = Ok tpl /\
       (ev = OpenFile (PARAMETERS_FILE g) (read_text w (PARAMETERS_FILE g)) \/
        exists flat wrapped,
          snd (load_parameters w (PARAMETERS_FILE g)) = Ok flat /\
          wrap_values flat = Ok wrapped /\
          let d := {| properties :=
                        {| mode := INCREMENTAL; template := tpl;
                           parameters := wrapped |} |} in
          let answer := deployments_begin_create_or_update w (RESOURCE_GROUP g)
                          "infrastructure-deployment" d in
          (ev = BeginCreateOrUpdate (RESOURCE_GROUP g) "infrastructure-deployment" d answer \/
           exists op, answer = Ok op /\ ev = PollerResult (poll op)))).
Proof.
  intros H. unfold script in H. in_trace H.
  - apply configuration_events in H as [text ->]. left. eexists. reflexivity.
  - rename a into g. unfold main in H. in_trace H.
    + right. left. eexists. symmetry. exact H.
    + right. right. left. symmetry. exact H.
    + do 3 right. exists g. split; [exact Ha|]. left. symmetry. exact H.
    + rewrite compile_bicep_eq in H. cbv zeta in H. cbn [fst In] in H.
      destruct H as [H | [H | H]].
      * right. left. eexists. symmetry. exact H.
      * do 3 right. exists g. split; [exact Ha|]. right. left. symmetry. exact H.
      * destruct (subprocess_run w _) as [cp | |]; try contradiction.
        destruct (returncode cp =? 0); [contradiction|].
        destruct H as [H | []]. left. eexists. symmetry. exact H.
    + rewrite load_parameters_eq in H. destruct H as [H | []].
      do 3 right. exists g. split; [exact Ha|]. do 2 right.
      eexists. split; [eassumption|]. left. symmetry. exact H.
    + right. left. eexists. symmetry. exact H.
    + do 3 right. exists g. split; [exact Ha|]. do 2 right.
      eexists. split; [eassumption|]. right.
      do 2 eexists. split; [eassumption|]. split; [eassumption|].
      cbv zeta. left. symmetry. exact H.
    + right. left. eexists. symmetry. exact H.
    + do 3 right. exists g. split; [exact Ha|]. do 2 right.
      eexists. split; [eassumption|]. right.
      do 2 eexists. split; [eassumption|]. split; [eassumption|].
      cbv zeta. right. eexists. split; [eassumption|]. symmetry. exact H.
    + right. left. eexists. symmetry. exact H.
    + apply print_outputs_prints in H as [text ->]. right. left. eexists. reflexivity.
Qed.

(** Getting through [n] parts of a sequence that all return. *)
Tactic Notation "through" integer(n) :=
  do n (eapply io_bind_ends; [first [eassumption | reflexivity]|]; cbv beta).

(** A run whose parameters cannot be loaded ends there. *)
Lemma script_ends_at_load (w : World) (g : Globals) (tpl : value) (e : exn) :
  snd (configuration w) = Ok g ->
  snd (compile_bicep w (BICEP_FILE g)) = Ok tpl ->
  snd (load_parameters w (PARAMETERS_FILE g)) = Raise e ->
  exists pre,
    script w
    = ((pre ++ [OpenFile (PARAMETERS_FILE g) (read_text w (PARAMETERS_FILE g))])%list,
       Raise e).
Proof.
  intros Hg Htpl Hload.
  unfold script. eapply io_bind_ends; [exact Hg|].
  unfold main. cbv zeta. through 4.
  exists []. rewrite (io_bind_Raise_eq _ _ e Hload), load_parameters_eq. reflexivity.
Qed.

(** A run whose submission is refused ends there. *)
Lemma script_ends_at_submit (w : World) (g : Globals) (tpl : value)
    (flat wrapped : dict) (e : exn) :
  snd (configuration w) = Ok g ->
  snd (compile_bicep w (BICEP_FILE g)) = Ok tpl ->
  snd (load_parameters w (PARAMETERS_FILE g)) = Ok flat ->
  wrap_values flat = Ok wrapped ->
  let d := {| properties :=
                {| mode := INCREMENTAL; template := tpl; parameters := wrapped |} |} in
  deployments_begin_create_or_update w (RESOURCE_GROUP g) "infrastructure-deployment" d
  = Raise e ->
  exists pre,
    script w
    = ((pre ++ [BeginCreateOrUpdate (RESOURCE_GROUP g) "infrastructure-deployment" d
                  (Raise e)])%list,
       Raise e).
Proof.
  intros Hg Htpl Hload Hwrap d Hans.
  unfold script. eapply io_bind_ends; [exact Hg|].
  unfold main. cbv zeta. through 7.
  exists []. unfold call. fold d. rewrite Hans. reflexivity.
Qed.

(** A run whose remote operation fails ends at the poll. *)
Lemma script_ends_at_poll (w : World) (g : Globals) (tpl : value)
    (flat wrapped : dict) (op : LROPoller) (e : exn) :
  snd (configuration w) = Ok g ->
  snd (compile_bicep w (BICEP_FILE g)) = Ok tpl ->
  snd (load_parameters w (PARAMETERS_FILE g)) = Ok flat ->
  wrap_values flat = Ok wrapped ->
  deployments_begin_create_or_update w (RESOURCE_GROUP g) "infrastructure-deployment"
    {| properties :=
         {| mode := INCREMENTAL; template := tpl; parameters := wrapped |} |}
  = Ok op ->
  poll op = Raise e ->
  exists pre, script w = ((pre ++ [PollerResult (Raise e)])%list, Raise e).
Proof.
  intros Hg Htpl Hload Hwrap Hans Hpoll.
  unfold script. eapply io_bind_ends; [exact Hg|].
  unfold main. cbv zeta. through 9.
  exists []. unfold call. rewrite Hpoll. reflexivity.
Qed.

(** A run whose remote operation answers ends with the report. *)
Lemma script_ends_with_report (w : World) (g : Globals) (tpl : value)
    (flat wrapped : dict) (op : LROPoller) (res : DeploymentExtended) :
  snd (configuration w) = Ok g ->
  snd (compile_bicep w (BICEP_FILE g)) = Ok tpl ->
  snd (load_parameters w (PARAMETERS_FILE g)) = Ok flat ->
  wrap_values flat = Ok wrapped ->
  deployments_begin_create_or_update w (RESOURCE_GROUP g) "infrastructure-deployment"
    {| properties :=
         {| mode := INCREMENTAL; template := tpl; parameters := wrapped |} |}
  = Ok op ->
  poll op = Ok res ->
  exists pre,
    script w
    = ((pre ++ PollerResult (Ok res)
            :: Print (nl ++ "✓ Deployment completed: " ++ provisioning_state res)
            :: fst (print_outputs w (outputs res)))%list,
       snd (print_outputs w (outputs res))).
Proof.
  intros Hg Htpl Hload Hwrap Hans Hpoll.
  unfold script. eapply io_bind_ends; [exact Hg|].
  unfold main. cbv zeta. through 9.
  exists []. unfold call. rewrite Hpoll. unfold print, emit.
  rewrite !io_bind_Ok. reflexivity.
Qed.

(** *** Counting over the parts of a run *)

Lemma io_bind_fst {A B} (m : io A) (f : A -> io B) :
  fst (io_bind m f)
  = (fst m ++ match snd m with Ok a => fst (f a) | _ => [] end)%list.
Proof.
  unfold io_bind. destruct (snd m); cbn [fst]; rewrite ?app_nil_r; reflexivity.
Qed.

Lemma submissions_bind {A B} (m : io A) (f : A -> io B) :
  submissions (fst (io_bind m f))
  = (submissions (fst m)
     ++ match snd m with Ok a => submissions (fst (f a)) | _ => [] end)%list.
Proof.
  rewrite io_bind_fst, submissions_app. destruct (snd m); reflexivity.
Qed.

Lemma stderr_text_app (t1 t2 : list event) :
  stderr_text (t1 ++ t2) = stderr_text t1 ++ stderr_text t2.
Proof.
  induction t1 as [| ev t1 IH]; [reflexivity|].
  destruct ev; cbn [app stderr_text]; rewrite ?IH; try reflexivity.
  rewrite !append_assoc. reflexivity.
Qed.

Lemma stderr_text_prints (t : list event) :
  (forall ev, In ev t -> exists text, ev = Print text) -> stderr_text t = "".
Proof.
  induction t as [| ev t IH]; intros Hp; [reflexivity|].
  destruct (Hp ev (or_introl eq_refl)) as [text ->]. cbn [stderr_text].
  apply IH. intros ev' Hin. apply Hp. right. exact Hin.
Qed.

Lemma fst_print (text : string) : fst (print text) = [Print text].
Proof. reflexivity. Qed.

Lemma fst_emit (ev : event) : fst (emit ev) = [ev].
Proof. reflexivity. Qed.

Lemma fst_call {A} (ev : result A -> event) (answer : result A) :
  fst (call ev answer) = [ev answer].
Proof. reflexivity. Qed.

Lemma fst_lift {A} (r : result A) : fst (lift r) = [].
Proof. reflexivity. Qed.

(** *** Failing comprehensions and loops *)

Lemma dict_comprehension_raises (f : string -> value -> result value) (e : exn)
    (its : list (string * value)) :
  (forall k v, In (k, v) its -> (exists x, f k v = Ok x) \/ f k v = Raise e) ->
  (exists k v, In (k, v) its /\ f k v = Raise e) ->
  forall acc, dict_comprehension f its acc = Raise e.
Proof.
  induction its as [| [k v] its IH]; intros Hall (k0 & v0 & Hin & Hbad) acc.
  - destruct Hin.
  - cbn [dict_comprehension].
    destruct (Hall k v (or_introl eq_refl)) as [[x Hx] | Hraise].
    + rewrite Hx. apply IH.
      * intros k' v' Hin'. apply Hall. right. exact Hin'.
      * destruct Hin as [[= <- <-] | Hin].
        -- rewrite Hx in Hbad. discriminate Hbad.
        -- exists k0, v0. split; assumption.
    + rewrite Hraise. reflexivity.
Qed.

Lemma print_output_not_dict (w : World) (k : string) (v : value) :
  (forall d, v <> VDict d) ->
  print_output w (k, v) = ([], Raise AttributeError).
Proof.
  intros Hv. unfold print_output, io_bind. cbn [snd fst lift].
  destruct v; try reflexivity. exfalso. eapply Hv. reflexivity.
Qed.

Lemma print_output_cases (w : World) (kv : string * value) :
  (exists line, print_output w kv = ([Print line], Ok tt)) \/
  print_output w kv = ([], Raise AttributeError).
Proof.
  destruct kv as [k v]. destruct v;
    try (right; apply print_output_not_dict; intros d' H; discriminate H).
  left. eexists. apply print_output_dict.
Qed.

Lemma for_each_outputs_raises (w : World) (its : list (string * value)) :
  (exists k v, In (k, v) its /\ forall d, v <> VDict d) ->
  snd (for_each its (print_output w)) = Raise AttributeError.
Proof.
  induction its as [| [k v] its IH]; intros (k0 & v0 & Hin & Hv0).
  - destruct Hin.
  - cbn [for_each].
    destruct (print_output_cases w (k, v)) as [[line Hline] | Hraise].
    + rewrite Hline, io_bind_Ok. cbn [snd]. apply IH.
      destruct Hin as [[= <- <-] | Hin].
      * rewrite (print_output_not_dict w k v Hv0) in Hline. discriminate Hline.
      * exists k0, v0. split; assumption.
    + rewrite Hraise. reflexivity.
Qed.

(** *** A run in which every step succeeds *)

Lemma configuration_set (w : World) (sub : string) :
  environ w "AZURE_SUBSCRIPTION_ID" = Some sub ->
  sub <> "" ->
  configuration w
  = ([], Ok {| RESOURCE_GROUP := getenv_default w "AZURE_RESOURCE_GROUP" "rg-agentic-waf";
               SUBSCRIPTION_ID := sub;
               BICEP_FILE :=
                 getenv_default w "BICEP_TEMPLATE_FILE" "infra/bicep/main.bicep";
               PARAMETERS_FILE :=
                 getenv_default w "BICEP_PARAMETERS_FILE"
                   "infra/bicep/main.parameters.json" |}).
Proof.
  intros Hsub Hne. unfold configuration, getenv. rewrite Hsub. cbn [truthy].
  destruct (String.eqb_spec sub "") as [E | _]; [contradiction | reflexivity].
Qed.

Lemma compile_bicep_returns (w : World) (path : string) (cp : CompletedProcess)
    (tpl : value) :
  subprocess_run w (build_argv path) = Ok cp ->
  returncode cp = 0 ->
  json_loads w (stdout cp) = Ok tpl ->
  snd (compile_bicep w path) = Ok tpl.
Proof.
  intros Hrun Hrc Hjson. rewrite compile_bicep_eq. cbv zeta. cbn [snd].
  rewrite Hrun, Hrc, Hjson. reflexivity.
Qed.

Lemma load_parameters_returns (w : World) (path text : string) (doc : value)
    (flat : dict) :
  read_text w path = Ok text ->
  json_loads w text = Ok doc ->
  extract_values doc = Ok flat ->
  load_parameters w path = ([OpenFile path (Ok text)], Ok flat).
Proof.
  intros Hread Hjson Hflat. rewrite load_parameters_eq, Hread. cbn [bind].
  rewrite Hjson. cbn [bind]. rewrite Hflat. reflexivity.
Qed.

(** *** The exit codes of a run *)

Import Hosts.

Lemma io_bind_Exit_inv {A B} (m : io A) (f : A -> io B) (c : Z) :
  snd (io_bind m f) = Exit c ->
  snd m = Exit c \/ exists a, snd m = Ok a /\ snd (f a) = Exit c.
Proof.
  unfold io_bind. destruct (snd m) as [a | e | c']; cbn [snd].
  - intros H. right. exists a. split; [reflexivity | exact H].
  - discriminate.
  - intros [= <-]. left. reflexivity.
Qed.

Lemma dict_comprehension_answers (f : string -> value -> result value)
    (its : list (string * value)) :
  (forall k v, answers (f k v)) ->
  forall acc, answers (dict_comprehension f its acc).
Proof.
  intros Hf. induction its as [| [k v] its IH]; intros acc c; cbn [dict_comprehension].
  - discriminate.
  - destruct (f k v) as [x | e | c'] eqn:Hx.
    + apply IH.
    + discriminate.
    + exfalso. apply (Hf k v c'). exact Hx.
Qed.

Lemma subscript_answers (d : value) (k : string) : answers (subscript d k).
Proof.
  intros c. unfold subscript. destruct d; try discriminate.
  destruct (dict_get k d); discriminate.
Qed.

Lemma extract_values_answers (doc : value) : answers (extract_values doc).
Proof.
  intros c. unfold extract_values.
  destruct (subscript doc "parameters") as [entries | e | c'] eqn:Hp; cbn [bind].
  - destruct entries; cbn [items bind]; try discriminate.
    apply dict_comprehension_answers. intros k v. apply subscript_answers.
  - discriminate.
  - exfalso. apply (subscript_answers doc "parameters" c'). exact Hp.
Qed.

Lemma wrap_values_answers (flat : dict) : answers (wrap_values flat).
Proof.
  apply dict_comprehension_answers. intros k v c. discriminate.
Qed.

Lemma for_each_outputs_answers (w : World) (its : list (string * value)) :
  answers (snd (for_each its (print_output w))).
Proof.
  induction its as [| kv its IH]; intros c; cbn [for_each].
  - discriminate.
  - destruct (print_output_cases w kv) as [[line Hline] | Hraise].
    + rewrite Hline, io_bind_Ok. cbn [snd]. apply IH.
    + rewrite Hraise. discriminate.
Qed.

Lemma print_outputs_answers (w : World) (outs : value) :
  answers (snd (print_outputs w outs)).
Proof.
  intros c. unfold print_outputs. destruct (truthy outs); [|discriminate].
  unfold print, emit, lift. rewrite io_bind_Ok. cbn [snd].
  destruct (items outs) as [its | e | c'] eqn:Hits.
  - rewrite io_bind_Ok. cbn [snd]. apply for_each_outputs_answers.
  - discriminate.
  - destruct outs; discriminate Hits.
Qed.

Lemma configuration_exit (w : World) (c : Z) :
  snd (configuration w) = Exit c -> c = 1.
Proof.
  unfold configuration.
  destruct (negb (truthy (getenv w "AZURE_SUBSCRIPTION_ID"))).
  - intros [= <-]. reflexivity.
  - destruct (getenv w "AZURE_SUBSCRIPTION_ID"); discriminate.
Qed.

Lemma compile_bicep_exit (w : World) (path : string) (c : Z) :
  collaborators_answer w ->
  snd (compile_bicep w path) = Exit c -> c = 1.
Proof.
  intros (Hrun & _ & Hjson & _). rewrite compile_bicep_eq. cbv zeta. cbn [snd].
  destruct (subprocess_run w (build_argv path)) as [cp | e | c'] eqn:Hans.
  - destruct (returncode cp =? 0).
    + intros H. exfalso. apply (Hjson _ _ H).
    + intros [= <-]. reflexivity.
  - discriminate.
  - exfalso. apply (Hrun _ _ Hans).
Qed.

Lemma load_parameters_answers (w : World) (path : string) :
  collaborators_answer w -> answers (snd (load_parameters w path)).
Proof.
  intros (_ & Hread & Hjson & _) c. rewrite load_parameters_eq. cbn [snd].
  destruct (read_text w path) as [text | e | c'] eqn:Htext; cbn [bind].
  - destruct (json_loads w text) as [doc | e | c'] eqn:Hdoc; cbn [bind].
    + apply extract_values_answers.
    + discriminate.
    + exfalso. apply (Hjson _ _ Hdoc).
  - discriminate.
  - exfalso. apply (Hread _ _ Htext).
Qed.

Ltac exit_trace H :=
  cbv beta zeta in H;
  lazymatch type of H with
  | snd (io_bind _ _) = Exit _ =>
      let a := fresh "a" in
      let Ha := fresh "Ha" in
      apply io_bind_Exit_inv in H as [H | (a & Ha & H)]; [| exit_trace H]
  | _ => idtac
  end.

(** The script ends the interpreter with status 1 only. *)
Lemma script_exit_code (w : World) (c : Z) :
  collaborators_answer w ->
  snd (script w) = Exit c -> c = 1.
Proof.
  intros Hw H. pose proof Hw as (_ & _ & _ & Hbegin & Hpoll).
  unfold script in H. exit_trace H.
  - apply configuration_exit in H. exact H.
  - unfold main in H. exit_trace H; try discriminate H.
    + apply (compile_bicep_exit w _ c Hw H).
    + exfalso. apply (load_parameters_answers w _ Hw c H).
    + exfalso. apply (wrap_values_answers _ c H).
    + exfalso. apply (Hbegin _ _ _ c H).
    + exfalso.
      match goal with
      | Hb : snd (call (BeginCreateOrUpdate _ _ _) _) = Ok ?op |- _ =>
          apply (Hpoll _ _ _ op Hb c H)
      end.
    + exfalso. apply (print_outputs_answers w _ c H).
Qed.

End RunFacts.

(** ** The performance tracker *)

Module PerformanceSpec.
Import Py Performance PyFacts.

(** The record is built exactly when the elapsed float has an integer
    part. *)
Lemma track_performance_inv (clock : Clock) (T : float) (r : dict) :
  track_performance clock T = Ok r ->
  exists ms, int_of_float (elapsed_ms clock T) = Ok ms /\
    r = [ ("total_execution_time_ms", VInt ms);
          ("start_time", VFloat T);
          ("end_time", VFloat (time_time clock));
          ("status", VStr "completed");
          ("workflow_version", VStr "v1.0") ].
Proof.
  unfold track_performance, elapsed_ms.
  destruct (int_of_float _) as [ms | e | c]; simpl; try discriminate.
  intros [= <-]. exists ms. split; reflexivity.
Qed.

Lemma track_performance_returns (clock : Clock) (T : float) :
  is_finite (elapsed_ms clock T) = true <->
  exists r, track_performance clock T = Ok r.
Proof.
  split.
  - intros Hfin. apply float_to_Q_is_finite in Hfin as [q Hq].
    apply int_of_float_trunc in Hq.
    unfold track_performance. fold (elapsed_ms clock T).
    rewrite Hq. simpl. eexists. reflexivity.
  - intros [r Hr]. apply track_performance_inv in Hr as (ms & Hms & _).
    eapply int_of_float_finite, Hms.
Qed.

(** No record comes back when the elapsed float is an infinity or NaN:
    [int] raises. *)
Lemma track_performance_raises (clock : Clock) (T : float) :
  is_finite (elapsed_ms clock T) = false ->
  exists e, track_performance clock T = Raise e.
Proof.
  unfold track_performance. fold (elapsed_ms clock T).
  destruct (elapsed_ms clock T); simpl; try discriminate; intros _; eexists; reflexivity.
Qed.

(** C1. Whenever the binary64 product of the binary64 difference
    [end_time - T] and 1000 (IEEE 754 subtraction and multiplication,
    round to nearest even) is finite with rational value [q],
    [track_performance] returns a record whose
    [total_execution_time_ms] is the truncation toward zero of [q],
    whose [end_time] is the clock value sampled during the call and
    whose [start_time] is [T]. *)
Theorem track_performance_total_ms (clock : Clock) (T : float) (q : Q) :
  float_to_Q (SFmul 53 1024 (SFsub 53 1024 (time_time clock) T)
                (binary_normalize 53 1024 1000 0 false)) = Some q ->
  exists r, track_performance clock T = Ok r /\
    dict_get "total_execution_time_ms" r = Some (VInt (Qtrunc q)) /\
    dict_get "end_time" r = Some (VFloat (time_time clock)) /\
    dict_get "start_time" r = Some (VFloat T).
Proof.
  intros Hq. apply int_of_float_trunc in Hq.
  unfold track_performance, float_mul, float_sub, float_of_int, prec, emax.
  rewrite Hq. cbn [bind].
  eexists. split; [reflexivity|]. repeat split.
Qed.

(** At clock 1.2345 and start 0.2 the elapsed float is 1034.5 and the
    record holds 1034; with the two exchanged it is -1034.5 and the
    record holds -1034. *)
Lemma track_performance_total_ms_witness :
  (exists r, track_performance (Samples.clock_at Cases.later) Cases.fifth = Ok r /\
     dict_get "total_execution_time_ms" r = Some (VInt 1034) /\
     dict_get "end_time" r = Some (VFloat Cases.later) /\
     dict_get "start_time" r = Some (VFloat Cases.fifth)) /\
  (exists r, track_performance (Samples.clock_at Cases.fifth) Cases.later = Ok r /\
     dict_get "total_execution_time_ms" r = Some (VInt (-1034)) /\
     dict_get "end_time" r = Some (VFloat Cases.fifth) /\
     dict_get "start_time" r = Some (VFloat Cases.later)).
Proof.
  split.
  - exact (track_performance_total_ms (Samples.clock_at Cases.later) Cases.fifth
             _ eq_refl).
  - exact (track_performance_total_ms (Samples.clock_at Cases.fifth) Cases.later
             _ eq_refl).
Defined.

(** The product is rounded before it is truncated: at 0.009 s the exact
    product of the stored float and 1000 is below 9, the binary64
    product is 9. *)
Example elapsed_ms_is_rounded :
  forall q, float_to_Q Samples.nine_ms = Some q ->
    Qtrunc (q * 1000) = 8 /\
    int_of_float (elapsed_ms (Samples.clock_at Samples.nine_ms) Samples.zero) = Ok 9.
Proof.
  intros q [= <-]. split; reflexivity.
Qed.

(** Read from the record: whatever record comes back, its
    [total_execution_time_ms] is the truncation of the elapsed float. *)
Lemma track_performance_record_total_ms (clock : Clock) (T : float) (r : dict) :
  track_performance clock T = Ok r ->
  exists q, float_to_Q (elapsed_ms clock T) = Some q /\
    dict_get "total_execution_time_ms" r = Some (VInt (Qtrunc q)).
Proof.
  intros Hr. pose proof (track_performance_inv clock T r Hr) as (ms & Hms & ->).
  pose proof (int_of_float_finite _ _ Hms) as Hfin.
  apply float_to_Q_is_finite in Hfin as [q Hq].
  exists q. split; [exact Hq|].
  rewrite (int_of_float_trunc _ _ Hq) in Hms. injection Hms as <-. reflexivity.
Qed.

(** C6. Every record [track_performance] returns has [status] equal to
    ["completed"] and [workflow_version] equal to ["v1.0"]. *)
Theorem track_performance_status_version (clock : Clock) (T : float) (r : dict) :
  track_performance clock T = Ok r ->
  dict_get "status" r = Some (VStr "completed") /\
  dict_get "workflow_version" r = Some (VStr "v1.0").
Proof.
  intros Hr. apply track_performance_inv in Hr as (ms & _ & ->).
  split; reflexivity.
Qed.

Lemma track_performance_status_version_witness :
  track_performance (Samples.clock_at Samples.two) Samples.one
    = Ok [ ("total_execution_time_ms", VInt 1000);
           ("start_time", VFloat Samples.one);
           ("end_time", VFloat Samples.two);
           ("status", VStr "completed");
           ("workflow_version", VStr "v1.0") ] /\
  dict_get "status"
    [ ("total_execution_time_ms", VInt 1000);
      ("start_time", VFloat Samples.one);
      ("end_time", VFloat Samples.two);
      ("status", VStr "completed");
      ("workflow_version", VStr "v1.0") ] = Some (VStr "completed") /\
  dict_get "workflow_version"
    [ ("total_execution_time_ms", VInt 1000);
      ("start_time", VFloat Samples.one);
      ("end_time", VFloat Samples.two);
      ("status", VStr "completed");
      ("workflow_version", VStr "v1.0") ] = Some (VStr "v1.0").
Proof.
  split; [reflexivity|].
  apply (track_performance_status_version (Samples.clock_at Samples.two) Samples.one).
  reflexivity.
Defined.

(** C7. Two calls with the same [start_time] and any two clock values
    return records with the same keys that agree on every key other
    than [end_time] and [total_execution_time_ms]: in particular on
    [status], [workflow_version] and [start_time]. *)
Theorem track_performance_same_start (c1 c2 : Clock) (T : float) (r1 r2 : dict) :
  track_performance c1 T = Ok r1 ->
  track_performance c2 T = Ok r2 ->
  keys r1 = keys r2 /\
  (forall k, k <> "end_time" -> k <> "total_execution_time_ms" ->
     dict_get k r1 = dict_get k r2) /\
  dict_get "status" r1 = dict_get "status" r2 /\
  dict_get "workflow_version" r1 = dict_get "workflow_version" r2 /\
  dict_get "start_time" r1 = dict_get "start_time" r2.
Proof.
  intros H1 H2.
  apply track_performance_inv in H1 as (ms1 & _ & ->).
  apply track_performance_inv in H2 as (ms2 & _ & ->).
  split; [reflexivity|]. split; [|repeat split].
  intros k Hend Htot. simpl.
  destruct (String.eqb_spec k "total_execution_time_ms") as [-> | _]; [contradiction|].
  destruct (String.eqb_spec k "start_time") as [-> | _]; [reflexivity|].
  destruct (String.eqb_spec k "end_time") as [-> | _]; [contradiction|].
  reflexivity.
Qed.

Lemma track_performance_same_start_witness :
  exists r1 r2,
    track_performance (Samples.clock_at Samples.one) Samples.zero = Ok r1 /\
    track_performance (Samples.clock_at Samples.two) Samples.zero = Ok r2 /\
    dict_get "total_execution_time_ms" r1 = Some (VInt 1000) /\
    dict_get "total_execution_time_ms" r2 = Some (VInt 2000) /\
    dict_get "status" r1 = dict_get "status" r2 /\
    dict_get "workflow_version" r1 = dict_get "workflow_version" r2 /\
    dict_get "start_time" r1 = dict_get "start_time" r2.
Proof.
  eexists. eexists.
  split; [reflexivity|]. split; [reflexivity|].
  split; [reflexivity|]. split; [reflexivity|].
  apply (track_performance_same_start
           (Samples.clock_at Samples.one) (Samples.clock_at Samples.two) Samples.zero);
    reflexivity.
Defined.

(** C5, as stated, fails: with the clock at 1.0 and [start_time] 2.0, a
    timestamp in the future, the record has [end_time] 1.0 below
    [start_time] 2.0 (and [total_execution_time_ms] -1000). *)
Lemma end_before_start_in_future :
  ~ (forall clock T r,
       valid_timestamp T = true ->
       track_performance clock T = Ok r ->
       end_not_before_start r = Some true).
Proof.
  intros H.
  specialize (H (Samples.clock_at Samples.one) Samples.two _ eq_refl eq_refl).
  discriminate H.
Qed.

(** C5, amended. The record stores the sampled clock value and the input
    unchanged, so [end_time >= start_time] holds in the record exactly
    when the sampled clock value is at least [T]; in particular it holds
    for every [T] that is not later than the sampled clock value. *)
Theorem track_performance_end_ge_start (clock : Clock) (T : float) (r : dict) :
  track_performance clock T = Ok r ->
  dict_get "start_time" r = Some (VFloat T) /\
  dict_get "end_time" r = Some (VFloat (time_time clock)) /\
  end_not_before_start r = Some (float_ge (time_time clock) T) /\
  (float_ge (time_time clock) T = true -> end_not_before_start r = Some true).
Proof.
  intros Hr. apply track_performance_inv in Hr as (ms & _ & ->).
  split; [reflexivity|]. split; [reflexivity|]. split; [reflexivity|].
  intros Hge. unfold end_not_before_start. simpl. rewrite Hge. reflexivity.
Qed.

Lemma track_performance_end_ge_start_witness :
  exists r, track_performance (Samples.clock_at Samples.two) Samples.one = Ok r /\
    end_not_before_start r = Some true.
Proof.
  eexists. split; [reflexivity|].
  apply (track_performance_end_ge_start (Samples.clock_at Samples.two) Samples.one);
    reflexivity.
Defined.

End PerformanceSpec.

(** ** The deployment driver *)

Module DeploySpec.
Import Py Deploy PyFacts DeployFacts RunFacts.

(** C2. With [AZURE_SUBSCRIPTION_ID] unset the script ends with
    [sys.exit(1)], its stderr names [AZURE_SUBSCRIPTION_ID], and the
    run consists of the two error lines only: no credential, no
    management client, no subprocess, no submitted deployment. *)
Theorem script_without_subscription (w : World) :
  environ w "AZURE_SUBSCRIPTION_ID" = None ->
  snd (script w) = Exit 1 /\
  exit_status (snd (script w)) = 1 /\
  substring_of "AZURE_SUBSCRIPTION_ID" (stderr_text (fst (script w))) /\
  (forall ev, In ev (fst (script w)) -> exists text, ev = PrintErr text) /\
  (forall ev, In ev (fst (script w)) -> remote_event ev = false) /\
  submissions (fst (script w)) = [].
Proof.
  intros Hunset.
  assert (Hrun : script w
                 = ([PrintErr "Error: AZURE_SUBSCRIPTION_ID environment variable is required";
                     PrintErr "Set it with: export AZURE_SUBSCRIPTION_ID=<your-subscription-id>"],
                    Exit 1)).
  { unfold script. rewrite configuration_unset; [reflexivity|].
    unfold getenv. rewrite Hunset. reflexivity. }
  rewrite Hrun. cbn [fst snd].
  split; [reflexivity|]. split; [reflexivity|]. split.
  - eapply substring_of_trans; [|apply stderr_text_In; left; reflexivity].
    exists "Error: ", " environment variable is required". reflexivity.
  - split; [|split; [|reflexivity]].
    + intros ev [<- | [<- | []]]; eexists; reflexivity.
    + intros ev [<- | [<- | []]]; reflexivity.
Qed.

Lemma script_without_subscription_witness :
  environ (Samples.world None 0 Samples.document Samples.succeeded)
    "AZURE_SUBSCRIPTION_ID" = None /\
  snd (script (Samples.world None 0 Samples.document Samples.succeeded)) = Exit 1.
Proof.
  split; [reflexivity|].
  apply (script_without_subscription
           (Samples.world None 0 Samples.document Samples.succeeded)).
  reflexivity.
Defined.

(** C3. When the build was launched and answered with a non-zero
    status, the script ends with [sys.exit(1)], the tool's stderr text
    is on the script's stderr, and no deployment is submitted. *)
Theorem script_compile_failure (w : World) (argv : list string) (cp : CompletedProcess) :
  In (SubprocessRun argv (Ok cp)) (fst (script w)) ->
  returncode cp <> 0 ->
  snd (script w) = Exit 1 /\
  exit_status (snd (script w)) = 1 /\
  In (PrintErr ("Error compiling Bicep: " ++ stderr cp)) (fst (script w)) /\
  substring_of (stderr cp) (stderr_text (fst (script w))) /\
  submissions (fst (script w)) = [] /\
  (forall rg name d ans, ~ In (BeginCreateOrUpdate rg name d ans) (fst (script w))).
Proof.
  intros Hin Hrc.
  destruct (script_build_failure w argv cp Hin Hrc) as (g & Hg & _ & Hc & pre & Hrun).
  assert (Hno : forall rg name d ans,
             ~ In (BeginCreateOrUpdate rg name d ans) (fst (script w))).
  { intros rg name d ans Hsub.
    apply script_submission_inv in Hsub as (g' & tpl & _ & _ & Hg' & Htpl & _).
    rewrite Hg in Hg'. injection Hg' as <-.
    rewrite Hc in Htpl. discriminate Htpl. }
  assert (Herr : In (PrintErr ("Error compiling Bicep: " ++ stderr cp)) (fst (script w))).
  { rewrite Hrun. cbn [fst]. apply in_or_app. right. right. left. reflexivity. }
  split; [rewrite Hrun; reflexivity|].
  split; [rewrite Hrun; reflexivity|].
  split; [exact Herr|]. split; [|split; [|exact Hno]].
  - eapply substring_of_trans; [|apply stderr_text_In, Herr].
    apply substring_of_app_r, substring_of_refl.
  - apply submissions_nil, Hno.
Qed.

Lemma script_compile_failure_witness :
  snd (script (Samples.world (Some "0000-1111") 1 Samples.document Samples.succeeded))
    = Exit 1 /\
  submissions
    (fst (script (Samples.world (Some "0000-1111") 1 Samples.document Samples.succeeded)))
    = [].
Proof.
  pose proof (script_compile_failure
                (Samples.world (Some "0000-1111") 1 Samples.document Samples.succeeded)
                (build_argv "infra/bicep/main.bicep")
                {| returncode := 1; stdout := "{}"; stderr := "main.bicep(3,1): error" |})
    as H.
  destruct H as (Hexit & _ & _ & _ & Hsub & _).
  - vm_compute. do 4 right. left. reflexivity.
  - discriminate.
  - split; [exact Hexit | exact Hsub].
Defined.

(** C4. For a parameters file whose document has under ["parameters"]
    a dict of entries that each carry a ["value"] field,
    [load_parameters] opens the file and returns the flat dict with the
    same keys in the same order, each bound to its entry's ["value"].
    In particular the document
    [{"parameters": {"a": {"value": 1}, "b": {"value": "x"}}}] gives
    [{"a": 1, "b": "x"}]. *)
Theorem load_parameters_flat (w : World) (path text : string) (doc : value)
    (entries : dict) :
  read_text w path = Ok text ->
  json_loads w text = Ok doc ->
  subscript doc "parameters" = Ok (VDict entries) ->
  NoDup (keys entries) ->
  (forall k e, In (k, e) entries -> exists v, subscript e "value" = Ok v) ->
  exists flat,
    load_parameters w path = ([OpenFile path (Ok text)], Ok flat) /\
    Forall2 (fun entry bound =>
               fst bound = fst entry /\
               subscript (snd entry) "value" = Ok (snd bound))
      entries flat /\
    (forall k e, dict_get k entries = Some e ->
       exists v, subscript e "value" = Ok v /\ dict_get k flat = Some v) /\
    (doc = Samples.document -> flat = [("a", VInt 1); ("b", VStr "x")]).
Proof.
  intros Hread Hjson Hdoc Hnd Hval.
  pose proof (extract_values_map doc entries Hdoc Hnd Hval) as Hflat.
  exists (map (fun kv => (fst kv, entry_value (snd kv))) entries).
  split; [|split; [|split]].
  - rewrite load_parameters_eq, Hread. cbn [bind]. rewrite Hjson. cbn [bind].
    rewrite Hflat. reflexivity.
  - clear Hflat Hnd Hdoc. induction entries as [| [k e] entries IH]; [constructor|].
    cbn [map]. constructor.
    + split; [reflexivity|]. cbn [fst snd]. unfold entry_value.
      destruct (Hval k e) as [v ->]; [left; reflexivity | reflexivity].
    + apply IH. intros k' e' Hin. apply (Hval k' e'). right. exact Hin.
  - intros k e Hk. destruct (Hval k e (dict_get_In k e entries Hk)) as [v Hv].
    exists v. split; [exact Hv|].
    rewrite (dict_get_map (fun _ e => entry_value e)), Hk. cbn [option_map].
    unfold entry_value. rewrite Hv. reflexivity.
  - intros ->. injection Hdoc as <-. reflexivity.
Qed.

Lemma load_parameters_flat_witness :
  load_parameters (Samples.world (Some "0000-1111") 0 Samples.document Samples.succeeded)
    "infra/bicep/main.parameters.json"
  = ([OpenFile "infra/bicep/main.parameters.json" (Ok "parameters")],
     Ok [("a", VInt 1); ("b", VStr "x")]).
Proof.
  destruct (load_parameters_flat
              (Samples.world (Some "0000-1111") 0 Samples.document Samples.succeeded)
              "infra/bicep/main.parameters.json" "parameters" Samples.document
              [("a", VDict [("value", VInt 1)]); ("b", VDict [("value", VStr "x")])])
    as (flat & Hload & _ & _ & Hsample).
  - reflexivity.
  - reflexivity.
  - reflexivity.
  - repeat constructor; simpl; intuition discriminate.
  - intros k e [[= <- <-] | [[= <- <-] | []]]; eexists; reflexivity.
  - rewrite Hload, (Hsample eq_refl). reflexivity.
Defined.

(** C8. Every deployment the script submits has the name
    ["infrastructure-deployment"] and mode incremental.  A run that
    returns has submitted exactly one; when the collaborators only
    return or raise, a run with exit status 0 is a run that returns.
    And a run in which every step succeeds does return, with exactly
    one submission: the compiled template and the re-wrapped
    parameters, in incremental mode, under the fixed name. *)
Theorem script_submits_incremental (w : World) :
  (forall rg name d, In (rg, name, d) (submissions (fst (script w))) ->
     name = "infrastructure-deployment" /\ mode (properties d) = INCREMENTAL) /\
  (snd (script w) = Ok tt -> List.length (submissions (fst (script w))) = 1%nat) /\
  (Hosts.collaborators_answer w ->
   exit_status (snd (script w)) = 0 ->
   snd (script w) = Ok tt /\ List.length (submissions (fst (script w))) = 1%nat) /\
  (forall sub cp tpl text doc flat wrapped op res,
     environ w "AZURE_SUBSCRIPTION_ID" = Some sub ->
     sub <> "" ->
     subprocess_run w
       (build_argv (getenv_default w "BICEP_TEMPLATE_FILE" "infra/bicep/main.bicep"))
     = Ok cp ->
     returncode cp = 0 ->
     json_loads w (stdout cp) = Ok tpl ->
     read_text w
       (getenv_default w "BICEP_PARAMETERS_FILE" "infra/bicep/main.parameters.json")
     = Ok text ->
     json_loads w text = Ok doc ->
     extract_values doc = Ok flat ->
     wrap_values flat = Ok wrapped ->
     deployments_begin_create_or_update w
       (getenv_default w "AZURE_RESOURCE_GROUP" "rg-agentic-waf")
       "infrastructure-deployment"
       {| properties :=
            {| mode := INCREMENTAL; template := tpl; parameters := wrapped |} |}
     = Ok op ->
     poll op = Ok res ->
     snd (print_outputs w (outputs res)) = Ok tt ->
     snd (script w) = Ok tt /\
     submissions (fst (script w))
     = [(getenv_default w "AZURE_RESOURCE_GROUP" "rg-agentic-waf",
         "infrastructure-deployment",
         {| properties :=
              {| mode := INCREMENTAL; template := tpl; parameters := wrapped |} |})]).
Proof.
  assert (Hone : snd (script w) = Ok tt ->
                 List.length (submissions (fst (script w))) = 1%nat).
  { intros Hok. destruct (script_success_submissions w Hok) as (g & tpl & wrapped & ->).
    reflexivity. }
  split; [|split; [exact Hone|split]].
  - intros rg name d Hin. apply submissions_In in Hin as [ans Hin].
    apply script_submission_inv in Hin
      as (g & tpl & flat & wrapped & _ & _ & _ & _ & _ & -> & ->).
    split; reflexivity.
  - intros Hw Hstatus.
    assert (Hok : snd (script w) = Ok tt).
    { destruct (snd (script w)) as [[] | e | c] eqn:Hrun; cbn [exit_status] in Hstatus.
      - reflexivity.
      - discriminate Hstatus.
      - pose proof (script_exit_code w c Hw Hrun). lia. }
    split; [exact Hok | exact (Hone Hok)].
  - intros sub cp tpl text doc flat wrapped op res
      Hsub Hne Hrun Hrc Htpl Hread Hdoc Hflat Hwrap Hbegin Hpoll Hreport.
    pose proof (configuration_set w sub Hsub Hne) as Hcfg.
    set (g := {| RESOURCE_GROUP := getenv_default w "AZURE_RESOURCE_GROUP" "rg-agentic-waf";
                 SUBSCRIPTION_ID := sub;
                 BICEP_FILE :=
                   getenv_default w "BICEP_TEMPLATE_FILE" "infra/bicep/main.bicep";
                 PARAMETERS_FILE :=
                   getenv_default w "BICEP_PARAMETERS_FILE"
                     "infra/bicep/main.parameters.json" |}) in *.
    assert (Hg : snd (configuration w) = Ok g) by (rewrite Hcfg; reflexivity).
    assert (Hc : snd (compile_bicep w (BICEP_FILE g)) = Ok tpl)
      by (apply (compile_bicep_returns w _ cp); assumption).
    assert (Hl : snd (load_parameters w (PARAMETERS_FILE g)) = Ok flat)
      by (rewrite (load_parameters_returns w _ text doc flat); [reflexivity | assumption ..]).
    destruct (script_ends_with_report w g tpl flat wrapped op res Hg Hc Hl Hwrap Hbegin Hpoll)
      as [pre Hscript].
    assert (Hok : snd (script w) = Ok tt) by (rewrite Hscript; exact Hreport).
    split; [exact Hok|].
    destruct (script_success_submissions w Hok) as (g' & tpl' & wrapped' & Hsubs).
    rewrite Hsubs.
    assert (Hin : In (RESOURCE_GROUP g', "infrastructure-deployment",
                      {| properties :=
                           {| mode := INCREMENTAL; template := tpl';
                              parameters := wrapped' |} |})
                     (submissions (fst (script w))))
      by (rewrite Hsubs; left; reflexivity).
    apply submissions_In in Hin as [ans Hin].
    apply script_submission_inv in Hin
      as (g'' & tpl'' & flat'' & wrapped'' & Hg'' & Hc'' & Hl'' & Hw'' & Hrg & _ & Hd).
    rewrite Hg in Hg''. injection Hg'' as <-.
    rewrite Hc in Hc''. injection Hc'' as <-.
    rewrite Hl in Hl''. injection Hl'' as <-.
    rewrite Hwrap in Hw''. injection Hw'' as <-.
    rewrite Hrg, Hd. reflexivity.
Qed.

(** In the world where everything answers, the run returns with the one
    submission. *)
Lemma script_submits_incremental_witness :
  Hosts.collaborators_answer Cases.happy /\
  exit_status (snd (script Cases.happy)) = 0 /\
  snd (script Cases.happy) = Ok tt /\
  List.length (submissions (fst (script Cases.happy))) = 1%nat /\
  submissions (fst (script Cases.happy))
  = [("rg-agentic-waf", "infrastructure-deployment",
      {| properties :=
           {| mode := INCREMENTAL;
              template := VDict [];
              parameters := [("a", VDict [("value", VInt 1)]);
                             ("b", VDict [("value", VStr "x")])] |} |})].
Proof.
  assert (Hw : Hosts.collaborators_answer Cases.happy).
  { unfold Hosts.collaborators_answer, Hosts.answers.
    repeat split; try (intros; cbn; discriminate).
    - intros text code H. cbn in H.
      destruct (String.eqb text "parameters"); discriminate H.
    - intros rg name d op Hop code Hcode. cbn in Hop.
      injection Hop as <-. discriminate Hcode. }
  destruct (script_submits_incremental Cases.happy) as (_ & _ & Hstatus & Hall).
  destruct (Hstatus Hw eq_refl) as [Hok Hone].
  destruct (Hall "0000-1111"
              {| returncode := 0; stdout := "{}"; stderr := "warning: unused parameter" |}
              (VDict []) "parameters" Samples.document
              [("a", VInt 1); ("b", VStr "x")]
              [("a", VDict [("value", VInt 1)]); ("b", VDict [("value", VStr "x")])]
              {| poll := Ok Samples.succeeded |} Samples.succeeded)
    as [_ Hsubs]; try reflexivity; try discriminate.
  split; [exact Hw|]. split; [reflexivity|]. split; [exact Hok|].
  split; [exact Hone | exact Hsubs].
Defined.

Example script_submits_once :
  snd (script (Samples.world (Some "0000-1111") 0 Samples.document Samples.succeeded))
    = Ok tt /\
  submissions
    (fst (script (Samples.world (Some "0000-1111") 0 Samples.document Samples.succeeded)))
  = [("rg-agentic-waf", "infrastructure-deployment",
      {| properties :=
           {| mode := INCREMENTAL;
              template := VDict [];
              parameters := [("a", VDict [("value", VInt 1)]);
                             ("b", VDict [("value", VStr "x")])] |} |})].
Proof. split; reflexivity. Qed.



(** C10. For a parameters file whose document has under ["parameters"]
    entries that each carry a ["value"] field, [load_parameters]
    returns the flat dict and the re-wrapping of [main] turns it into,
    key by key and in order, exactly [{"value": v}] with [v] the
    entry's ["value"]: other fields of an entry are gone.  When the
    file is the configured parameters file, every deployment a run
    submits has exactly this dict as its parameters. *)
Theorem parameters_rewrapped (w : World) (path text : string) (doc : value)
    (entries : dict) :
  read_text w path = Ok text ->
  json_loads w text = Ok doc ->
  subscript doc "parameters" = Ok (VDict entries) ->
  NoDup (keys entries) ->
  (forall k e, In (k, e) entries -> exists v, subscript e "value" = Ok v) ->
  exists flat wrapped,
    load_parameters w path = ([OpenFile path (Ok text)], Ok flat) /\
    wrap_values flat = Ok wrapped /\
    Forall2 (fun entry sent =>
               fst sent = fst entry /\
               exists v, subscript (snd entry) "value" = Ok v /\
                         snd sent = VDict [("value", v)])
      entries wrapped /\
    (path = getenv_default w "BICEP_PARAMETERS_FILE" "infra/bicep/main.parameters.json" ->
     forall rg name d ans,
       In (BeginCreateOrUpdate rg name d ans) (fst (script w)) ->
       parameters (properties d) = wrapped).
Proof.
  intros Hread Hjson Hdoc Hnd Hval.
  pose proof (extract_values_map doc entries Hdoc Hnd Hval) as Hflat.
  set (flat := map (fun kv => (fst kv, entry_value (snd kv))) entries) in *.
  assert (Hkeys : NoDup (keys flat)).
  { unfold flat. rewrite (keys_map_values (fun _ e => entry_value e)). exact Hnd. }
  pose proof (wrap_values_map flat Hkeys) as Hwrap.
  pose proof (load_parameters_returns w path text doc flat Hread Hjson Hflat) as Hload.
  exists flat, (map (fun kv => (fst kv, VDict [("value", snd kv)])) flat).
  split; [exact Hload|]. split; [exact Hwrap|]. split.
  - clear Hflat Hwrap Hkeys Hnd Hdoc Hload. subst flat.
    induction entries as [| [k e] entries IH]; [constructor|].
    cbn [map]. constructor.
    + split; [reflexivity|]. cbn [fst snd]. unfold entry_value.
      destruct (Hval k e) as [v Hv]; [left; reflexivity|].
      exists v. rewrite Hv. split; reflexivity.
    + apply IH. intros k' e' Hin. apply (Hval k' e'). right. exact Hin.
  - intros Hpath rg name d ans Hsub.
    apply script_submission_inv in Hsub
      as (g & tpl & flat' & wrapped' & Hg & _ & Hload' & Hwrap' & _ & _ & ->).
    destruct (configuration_globals w g Hg) as (_ & _ & Hfile).
    rewrite Hfile, <- Hpath, Hload in Hload'. injection Hload' as <-.
    rewrite Hwrap in Hwrap'. injection Hwrap' as <-.
    reflexivity.
Qed.

(** The run on the file with metadata submits the two values, wrapped,
    and nothing of the metadata. *)
Lemma parameters_rewrapped_witness :
  load_parameters Cases.with_metadata "infra/bicep/main.parameters.json"
  = ([OpenFile "infra/bicep/main.parameters.json" (Ok "parameters")],
     Ok [("location", VStr "westeurope"); ("replicas", VInt 3)]) /\
  exists d ans,
    In (BeginCreateOrUpdate "rg-agentic-waf" "infrastructure-deployment" d ans)
       (fst (script Cases.with_metadata)) /\
    parameters (properties d)
    = [("location", VDict [("value", VStr "westeurope")]);
       ("replicas", VDict [("value", VInt 3)])].
Proof.
  destruct (parameters_rewrapped Cases.with_metadata
              "infra/bicep/main.parameters.json" "parameters"
              Samples.document_with_metadata
              [("location", VDict [("value", VStr "westeurope");
                                   ("metadata", VStr "region")]);
               ("replicas", VDict [("type", VStr "int"); ("value", VInt 3)])])
    as (flat & wrapped & Hload & Hwrap & _ & Hsent).
  - reflexivity.
  - reflexivity.
  - reflexivity.
  - repeat constructor; simpl; intuition discriminate.
  - intros k e [[= <- <-] | [[= <- <-] | []]]; eexists; reflexivity.
  - assert (Hflat : flat = [("location", VStr "westeurope"); ("replicas", VInt 3)]).
    { vm_compute in Hload. injection Hload as <-. reflexivity. }
    subst flat. vm_compute in Hwrap. injection Hwrap as <-.
    split; [exact Hload|].
    assert (Hin : In (BeginCreateOrUpdate "rg-agentic-waf" "infrastructure-deployment"
                        {| properties :=
                             {| mode := INCREMENTAL; template := VDict [];
                                parameters :=
                                  [("location", VDict [("value", VStr "westeurope")]);
                                   ("replicas", VDict [("value", VInt 3)])] |} |}
                        (Cases.answered Samples.succeeded))
                     (fst (script Cases.with_metadata))).
    { vm_compute. do 7 right. left. reflexivity. }
    do 2 eexists. split; [exact Hin|].
    exact (Hsent eq_refl _ _ _ _ Hin).
Defined.

End DeploySpec.

(** ** Further properties of the deployment driver *)

Module DeployExtra.
Import Py Deploy PyFacts DeployFacts RunFacts.

(** X1. An [AZURE_SUBSCRIPTION_ID] that is set to the empty string is
    treated like an unset one: the two error lines, then [sys.exit(1)]. *)
Theorem script_empty_subscription (w : World) :
  environ w "AZURE_SUBSCRIPTION_ID" = Some "" ->
  script w
  = ([PrintErr "Error: AZURE_SUBSCRIPTION_ID environment variable is required";
      PrintErr "Set it with: export AZURE_SUBSCRIPTION_ID=<your-subscription-id>"],
     Exit 1).
Proof.
  intros Hempty. unfold script. rewrite configuration_unset; [reflexivity|].
  unfold getenv. rewrite Hempty. reflexivity.
Qed.

Lemma script_empty_subscription_witness :
  snd (script (Cases.world_of [("AZURE_SUBSCRIPTION_ID", "")] Cases.built
                 (Ok "parameters") (Ok Samples.document)
                 (Cases.answered Samples.succeeded)))
  = Exit 1.
Proof.
  rewrite (script_empty_subscription
             (Cases.world_of [("AZURE_SUBSCRIPTION_ID", "")] Cases.built
                (Ok "parameters") (Ok Samples.document)
                (Cases.answered Samples.succeeded)));
    reflexivity.
Defined.

(** X2. The only subprocess a run launches is
    [az bicep build --file F --stdout], with [F] the value of
    [BICEP_TEMPLATE_FILE] or [infra/bicep/main.bicep] when it is unset. *)
Theorem script_build_command (w : World) (argv : list string)
    (ans : result CompletedProcess) :
  In (SubprocessRun argv ans) (fst (script w)) ->
  argv = ["az"; "bicep"; "build"; "--file";
          match environ w "BICEP_TEMPLATE_FILE" with
          | Some file => file
          | None => "infra/bicep/main.bicep"
          end;
          "--stdout"] /\
  ans = subprocess_run w argv.
Proof.
  intros Hin. apply script_events in Hin
    as [[? H] | [[? H] | [H | (g & Hg & [H | [H | (tpl & _ & [H | Hrest])]])]]];
    try discriminate H.
  - injection H as -> ->.
    destruct (configuration_globals w g Hg) as (_ & -> & _). split; reflexivity.
  - destruct Hrest as (flat & wrapped & _ & _ & Hrest). cbv zeta in Hrest.
    destruct Hrest as [H | (op & _ & H)]; discriminate H.
Qed.

Lemma script_build_command_witness :
  In (SubprocessRun ["az"; "bicep"; "build"; "--file"; "main.bicep"; "--stdout"]
        Cases.built)
     (fst (script (Cases.world_of
                     (("BICEP_TEMPLATE_FILE", "main.bicep") :: Cases.subscribed)
                     Cases.built (Ok "parameters") (Ok Samples.document)
                     (Cases.answered Samples.succeeded)))) /\
  ["az"; "bicep"; "build"; "--file"; "main.bicep"; "--stdout"]
  = ["az"; "bicep"; "build"; "--file";
     match Cases.lookup "BICEP_TEMPLATE_FILE"
             (("BICEP_TEMPLATE_FILE", "main.bicep") :: Cases.subscribed) with
     | Some file => file
     | None => "infra/bicep/main.bicep"
     end;
     "--stdout"].
Proof.
  assert (Hin : In (SubprocessRun ["az"; "bicep"; "build"; "--file"; "main.bicep"; "--stdout"]
                      Cases.built)
                   (fst (script (Cases.world_of
                                   (("BICEP_TEMPLATE_FILE", "main.bicep") :: Cases.subscribed)
                                   Cases.built (Ok "parameters") (Ok Samples.document)
                                   (Cases.answered Samples.succeeded))))).
  { vm_compute. do 4 right. left. reflexivity. }
  split; [exact Hin|].
  exact (proj1 (script_build_command _ _ _ Hin)).
Defined.

(** X3. A deployment is submitted only to the resource group named by
    [AZURE_RESOURCE_GROUP], or [rg-agentic-waf] when it is unset, and
    only with a template that [json.loads] read from the stdout of a
    build that ended with status 0. *)
Theorem script_submission_origin (w : World) (rg name : string) (d : Deployment)
    (ans : result LROPoller) :
  In (BeginCreateOrUpdate rg name d ans) (fst (script w)) ->
  rg = match environ w "AZURE_RESOURCE_GROUP" with
       | Some group => group
       | None => "rg-agentic-waf"
       end /\
  ans = deployments_begin_create_or_update w rg name d /\
  exists argv cp,
    In (SubprocessRun argv (Ok cp)) (fst (script w)) /\
    returncode cp = 0 /\
    json_loads w (stdout cp) = Ok (template (properties d)).
Proof.
  intros Hin. pose proof Hin as Hev. apply script_events in Hev
    as [[? H] | [[? H] | [H | (g & Hg & [H | [H | (tpl & Htpl & [H | Hrest])]])]]];
    try discriminate H.
  destruct Hrest as (flat & wrapped & _ & _ & Hrest). cbv zeta in Hrest.
  destruct Hrest as [H | (op & _ & H)]; [|discriminate H].
  injection H as -> -> -> ->.
  destruct (configuration_globals w g Hg) as (Hrg & _ & _).
  destruct (compile_bicep_Ok w (BICEP_FILE g) tpl Htpl) as (cp & Hrun & Hrc & Hjson & Htrace).
  split; [exact Hrg|]. split; [reflexivity|].
  exists (build_argv (BICEP_FILE g)), cp. split; [|split; assumption].
  unfold script. rewrite (io_bind_eq _ _ g Hg). cbn [fst].
  apply in_or_app. right. unfold main.
  do 3 (rewrite io_bind_fst; apply in_or_app; right; cbn [snd print emit]).
  rewrite io_bind_fst. apply in_or_app. left. rewrite Htrace. right. left. reflexivity.
Qed.

Lemma script_submission_origin_witness :
  exists d ans,
    In (BeginCreateOrUpdate "rg-agentic-waf" "infrastructure-deployment" d ans)
       (fst (script Cases.happy)) /\
    template (properties d) = VDict [].
Proof.
  assert (Hin : In (BeginCreateOrUpdate "rg-agentic-waf" "infrastructure-deployment"
                      {| properties :=
                           {| mode := INCREMENTAL; template := VDict [];
                              parameters := [("a", VDict [("value", VInt 1)]);
                                             ("b", VDict [("value", VStr "x")])] |} |}
                      (Cases.answered Samples.succeeded))
                   (fst (script Cases.happy))).
  { vm_compute. do 7 right. left. reflexivity. }
  destruct (script_submission_origin _ _ _ _ _ Hin) as (_ & _ & argv & cp & _ & _ & Hjson).
  do 2 eexists. split; [exact Hin | reflexivity].
Defined.

(** X4. When the parsed parameters document is a dict without the
    ["parameters"] key, [load_parameters] opens the file and raises
    [KeyError('parameters')]. *)
Theorem load_parameters_missing_key (w : World) (path text : string) (d : dict) :
  read_text w path = Ok text ->
  json_loads w text = Ok (VDict d) ->
  dict_get "parameters" d = None ->
  load_parameters w path = ([OpenFile path (Ok text)], Raise (KeyError "parameters")).
Proof.
  intros Hread Hjson Hkey.
  rewrite load_parameters_eq, Hread. cbn [bind]. rewrite Hjson. cbn [bind].
  unfold extract_values, subscript. rewrite Hkey. reflexivity.
Qed.

Lemma load_parameters_missing_key_witness :
  load_parameters Cases.unwrapped_document "infra/bicep/main.parameters.json"
  = ([OpenFile "infra/bicep/main.parameters.json" (Ok "parameters")],
     Raise (KeyError "parameters")).
Proof.
  apply (load_parameters_missing_key Cases.unwrapped_document
           "infra/bicep/main.parameters.json" "parameters"
           [("a", VDict [("value", VInt 1)])]); reflexivity.
Defined.

(** X5. When every entry under ["parameters"] is a dict and one of them
    has no ["value"] field, [load_parameters] raises [KeyError('value')]:
    no partial mapping is returned. *)
Theorem load_parameters_missing_value (w : World) (path text : string) (doc : value)
    (entries : dict) :
  read_text w path = Ok text ->
  json_loads w text = Ok doc ->
  subscript doc "parameters" = Ok (VDict entries) ->
  (forall k e, In (k, e) entries -> exists fields, e = VDict fields) ->
  (exists k fields, In (k, VDict fields) entries /\ dict_get "value" fields = None) ->
  snd (load_parameters w path) = Raise (KeyError "value").
Proof.
  intros Hread Hjson Hdoc Hdicts (k0 & fields0 & Hin0 & Hnone).
  rewrite load_parameters_eq, Hread. cbn [snd bind]. rewrite Hjson. cbn [bind].
  unfold extract_values. rewrite Hdoc. cbn [bind items].
  apply dict_comprehension_raises.
  - intros k e Hin. destruct (Hdicts k e Hin) as [fields ->].
    unfold subscript. destruct (dict_get "value" fields) as [x |].
    + left. exists x. reflexivity.
    + right. reflexivity.
  - exists k0, (VDict fields0). split; [exact Hin0|].
    unfold subscript. rewrite Hnone. reflexivity.
Qed.

Lemma load_parameters_missing_value_witness :
  snd (load_parameters Cases.valueless_entry "infra/bicep/main.parameters.json")
  = Raise (KeyError "value").
Proof.
  apply (load_parameters_missing_value Cases.valueless_entry
           "infra/bicep/main.parameters.json" "parameters"
           (VDict [("parameters",
                    VDict [("a", VDict [("value", VInt 1)]);
                           ("b", VDict [("reference", VStr "vault")])])])
           [("a", VDict [("value", VInt 1)]);
            ("b", VDict [("reference", VStr "vault")])]).
  - reflexivity.
  - reflexivity.
  - reflexivity.
  - intros k e [[= <- <-] | [[= <- <-] | []]]; eexists; reflexivity.
  - exists "b", [("reference", VStr "vault")]. split; [right; left; reflexivity | reflexivity].
Defined.

(** X6. When the parameters cannot be loaded (the file cannot be read,
    its text is no JSON, a key is missing), the run ends with that
    exception right after opening the file: exit status 1, and no
    deployment is submitted. *)
Theorem script_load_failure (w : World) (path : string) (ans : result string) (e : exn) :
  In (OpenFile path ans) (fst (script w)) ->
  snd (load_parameters w path) = Raise e ->
  (exists pre, script w = ((pre ++ [OpenFile path ans])%list, Raise e)) /\
  exit_status (snd (script w)) = 1 /\
  submissions (fst (script w)) = [].
Proof.
  intros Hin Hload. pose proof Hin as Hev. apply script_events in Hev
    as [[? H] | [[? H] | [H | (g & Hg & [H | [H | (tpl & Htpl & [H | Hrest])]])]]];
    try discriminate H.
  2:{ destruct Hrest as (flat & wrapped & _ & _ & Hrest). cbv zeta in Hrest.
      destruct Hrest as [H | (op & _ & H)]; discriminate H. }
  injection H as -> ->.
  destruct (script_ends_at_load w g tpl e Hg Htpl Hload) as [pre Hrun].
  split; [exists pre; exact Hrun|].
  split; [rewrite Hrun; reflexivity|].
  apply submissions_nil. intros rg name d ans Hsub.
  apply script_submission_inv in Hsub as (g' & _ & flat & _ & Hg' & _ & Hflat & _).
  rewrite Hg in Hg'. injection Hg' as <-.
  rewrite Hload in Hflat. discriminate Hflat.
Qed.

Lemma script_load_failure_witness :
  snd (script Cases.unreadable) = Raise (OSError "infra/bicep/main.parameters.json") /\
  submissions (fst (script Cases.unreadable)) = [].
Proof.
  destruct (script_load_failure Cases.unreadable "infra/bicep/main.parameters.json"
              (Raise (OSError "infra/bicep/main.parameters.json"))
              (OSError "infra/bicep/main.parameters.json"))
    as ([pre Hrun] & _ & Hsub).
  - vm_compute. do 5 right. left. reflexivity.
  - reflexivity.
  - split; [rewrite Hrun; reflexivity | exact Hsub].
Defined.

(** X7. When [begin_create_or_update] raises, the exception ends the
    run at that call: exit status 1, nothing is printed after it and the
    result is never polled. *)
Theorem script_submission_refused (w : World) (rg name : string) (d : Deployment)
    (e : exn) :
  In (BeginCreateOrUpdate rg name d (Raise e)) (fst (script w)) ->
  (exists pre,
     script w = ((pre ++ [BeginCreateOrUpdate rg name d (Raise e)])%list, Raise e)) /\
  exit_status (snd (script w)) = 1 /\
  (forall answer, ~ In (PollerResult answer) (fst (script w))).
Proof.
  intros Hin. pose proof Hin as Hev. apply script_events in Hev
    as [[? H] | [[? H] | [H | (g & Hg & [H | [H | (tpl & Htpl & [H | Hrest])]])]]];
    try discriminate H.
  destruct Hrest as (flat & wrapped & Hflat & Hwrap & Hrest). cbv zeta in Hrest.
  destruct Hrest as [H | (op & _ & H)]; [|discriminate H].
  injection H as -> -> -> Hans. symmetry in Hans.
  destruct (script_ends_at_submit w g tpl flat wrapped e Hg Htpl Hflat Hwrap Hans)
    as [pre Hrun].
  split; [exists pre; exact Hrun|].
  split; [rewrite Hrun; reflexivity|].
  intros answer Hpoll. apply script_events in Hpoll
    as [[? H] | [[? H] | [H | (g' & Hg' & [H | [H | (tpl' & Htpl' & [H | Hrest])]])]]];
    try discriminate H.
  destruct Hrest as (flat' & wrapped' & Hflat' & Hwrap' & Hrest). cbv zeta in Hrest.
  destruct Hrest as [H | (op & Hop & _)]; [discriminate H|].
  rewrite Hg in Hg'. injection Hg' as <-.
  rewrite Htpl in Htpl'. injection Htpl' as <-.
  rewrite Hflat in Hflat'. injection Hflat' as <-.
  rewrite Hwrap in Hwrap'. injection Hwrap' as <-.
  rewrite Hans in Hop. discriminate Hop.
Qed.

Lemma script_submission_refused_witness :
  snd (script Cases.refused) = Raise HttpResponseError /\
  exit_status (snd (script Cases.refused)) = 1.
Proof.
  destruct (script_submission_refused Cases.refused
              "rg-agentic-waf" "infrastructure-deployment"
              {| properties :=
                   {| mode := INCREMENTAL; template := VDict [];
                      parameters := [("a", VDict [("value", VInt 1)]);
                                     ("b", VDict [("value", VStr "x")])] |} |}
              HttpResponseError)
    as ([pre Hrun] & Hstatus & _).
  - vm_compute. do 7 right. left. reflexivity.
  - split; [rewrite Hrun; reflexivity | exact Hstatus].
Defined.

(** X8. When the remote operation ends in an exception, [operation.result()]
    raises it and the run ends there with exit status 1: the line
    [Deployment completed] is never printed. *)
Theorem script_operation_failed (w : World) (e : exn) :
  In (PollerResult (Raise e)) (fst (script w)) ->
  (exists pre, script w = ((pre ++ [PollerResult (Raise e)])%list, Raise e)) /\
  exit_status (snd (script w)) = 1.
Proof.
  intros Hin. apply script_events in Hin
    as [[? H] | [[? H] | [H | (g & Hg & [H | [H | (tpl & Htpl & [H | Hrest])]])]]];
    try discriminate H.
  destruct Hrest as (flat & wrapped & Hflat & Hwrap & Hrest). cbv zeta in Hrest.
  destruct Hrest as [H | (op & Hop & H)]; [discriminate H|].
  injection H as Hpoll. symmetry in Hpoll.
  destruct (script_ends_at_poll w g tpl flat wrapped op e Hg Htpl Hflat Hwrap Hop Hpoll)
    as [pre Hrun].
  split; [exists pre; exact Hrun | rewrite Hrun; reflexivity].
Qed.

Lemma script_operation_failed_witness :
  snd (script Cases.broken_operation) = Raise HttpResponseError /\
  stdout_text (fst (script Cases.broken_operation))
  = "Initializing Azure deployment..." ++ nl
    ++ "Compiling infra/bicep/main.bicep..." ++ nl
    ++ "Starting deployment 'infrastructure-deployment' to resource group 'rg-agentic-waf'..."
    ++ nl ++ "Deployment started. Waiting for completion..." ++ nl.
Proof.
  destruct (script_operation_failed Cases.broken_operation HttpResponseError)
    as ([pre Hrun] & _).
  - vm_compute. do 9 right. left. reflexivity.
  - split; [rewrite Hrun; reflexivity | reflexivity].
Defined.

(** X9. When the result has no outputs ([None] or an empty dict), the run
    returns right after the completion line: no [Outputs:] header is
    printed. *)
Theorem script_without_outputs (w : World) (res : DeploymentExtended) :
  In (PollerResult (Ok res)) (fst (script w)) ->
  truthy (outputs res) = false ->
  exists pre,
    script w
    = ((pre ++ [PollerResult (Ok res);
                Print (nl ++ "✓ Deployment completed: " ++ provisioning_state res)])%list,
       Ok tt).
Proof.
  intros Hin Hfalsy. apply script_events in Hin
    as [[? H] | [[? H] | [H | (g & Hg & [H | [H | (tpl & Htpl & [H | Hrest])]])]]];
    try discriminate H.
  destruct Hrest as (flat & wrapped & Hflat & Hwrap & Hrest). cbv zeta in Hrest.
  destruct Hrest as [H | (op & Hop & H)]; [discriminate H|].
  injection H as Hpoll. symmetry in Hpoll.
  destruct (script_ends_with_report w g tpl flat wrapped op res
              Hg Htpl Hflat Hwrap Hop Hpoll) as [pre Hrun].
  exists pre. rewrite Hrun. unfold print_outputs. rewrite Hfalsy. reflexivity.
Qed.

Lemma script_without_outputs_witness :
  snd (script Cases.without_outputs) = Ok tt /\
  exists pre,
    fst (script Cases.without_outputs)
    = (pre ++ [PollerResult (Ok Cases.bare);
               Print (nl ++ "✓ Deployment completed: Succeeded")])%list.
Proof.
  destruct (script_without_outputs Cases.without_outputs Cases.bare) as [pre Hrun].
  - vm_compute. do 9 right. left. reflexivity.
  - reflexivity.
  - split; [rewrite Hrun; reflexivity|]. exists pre. rewrite Hrun. reflexivity.
Defined.

(** X10. When the outputs are a dict with an entry that is not itself a
    dict, the run raises [AttributeError] while printing the outputs,
    after the deployment completed: exit status 1. *)
Theorem script_output_not_dict (w : World) (res : DeploymentExtended)
    (its : list (string * value)) :
  In (PollerResult (Ok res)) (fst (script w)) ->
  outputs res = VDict its ->
  (exists k v, In (k, v) its /\ forall d, v <> VDict d) ->
  snd (script w) = Raise AttributeError /\
  In (Print (nl ++ "✓ Deployment completed: " ++ provisioning_state res)) (fst (script w)).
Proof.
  intros Hin Hits Hbad. apply script_events in Hin
    as [[? H] | [[? H] | [H | (g & Hg & [H | [H | (tpl & Htpl & [H | Hrest])]])]]];
    try discriminate H.
  destruct Hrest as (flat & wrapped & Hflat & Hwrap & Hrest). cbv zeta in Hrest.
  destruct Hrest as [H | (op & Hop & H)]; [discriminate H|].
  injection H as Hpoll. symmetry in Hpoll.
  destruct (script_ends_with_report w g tpl flat wrapped op res
              Hg Htpl Hflat Hwrap Hop Hpoll) as [pre Hrun].
  rewrite Hrun. cbn [fst snd]. split.
  - rewrite Hits. unfold print_outputs.
    destruct its as [| kv its]; [destruct Hbad as (? & ? & [] & _)|].
    cbn [truthy items]. unfold print, emit, lift. rewrite !io_bind_Ok. cbn [snd].
    apply for_each_outputs_raises, Hbad.
  - apply in_or_app. right. right. left. reflexivity.
Qed.

Lemma script_output_not_dict_witness :
  snd (script Cases.plain_output) = Raise AttributeError.
Proof.
  apply (script_output_not_dict Cases.plain_output
           {| provisioning_state := "Succeeded";
              outputs := VDict [("url", VStr "http://example")] |}
           [("url", VStr "http://example")]).
  - vm_compute. do 9 right. left. reflexivity.
  - reflexivity.
  - exists "url", (VStr "http://example"). split; [left; reflexivity|].
    intros d H. discriminate H.
Defined.

(** X11. The re-wrapping of [main] undoes the extraction of
    [load_parameters]: for a flat dict with distinct keys, wrapping every
    value as [{"value": v}] and extracting from
    [{"parameters": wrapped}] gives the flat dict back. *)
Theorem extract_wrap_round_trip (flat wrapped : dict) :
  NoDup (keys flat) ->
  wrap_values flat = Ok wrapped ->
  extract_values (VDict [("parameters", VDict wrapped)]) = Ok flat.
Proof.
  intros Hnd Hwrap. rewrite (wrap_values_map flat Hnd) in Hwrap.
  injection Hwrap as <-.
  rewrite (extract_values_map _ (map (fun kv => (fst kv, VDict [("value", snd kv)])) flat)).
  - f_equal. rewrite map_map. cbn [fst snd].
    rewrite <- (map_id flat) at 2. apply map_ext. intros [k v]. reflexivity.
  - reflexivity.
  - rewrite (keys_map_values (fun _ v => VDict [("value", v)])). exact Hnd.
  - intros k e Hin. apply in_map_iff in Hin as ([k' v] & [= <- <-] & _).
    eexists. reflexivity.
Qed.

Lemma extract_wrap_round_trip_witness :
  extract_values
    (VDict [("parameters",
             VDict [("a", VDict [("value", VInt 1)]); ("b", VDict [("value", VStr "x")])])])
  = Ok [("a", VInt 1); ("b", VStr "x")].
Proof.
  apply (extract_wrap_round_trip [("a", VInt 1); ("b", VStr "x")]).
  - repeat constructor; simpl; intuition discriminate.
  - reflexivity.
Defined.

(** X12. No run submits more than one deployment, whatever fails. *)
Theorem script_submits_at_most_once (w : World) :
  (List.length (submissions (fst (script w))) <= 1)%nat.
Proof.
  unfold script. rewrite submissions_bind, configuration_no_submission.
  destruct (snd (configuration w)) as [g | |]; cbn [app List.length]; try lia.
  unfold main. cbv zeta.
  repeat (rewrite submissions_bind;
          rewrite ?compile_bicep_no_submission, ?load_parameters_no_submission,
            ?fst_print, ?fst_emit, ?fst_call, ?fst_lift;
          match goal with
          | |- context [match snd ?m with Ok _ => _ | Raise _ => [] | Exit _ => [] end] =>
              destruct (snd m)
          end;
          cbv beta; cbn [app List.length submissions]; try lia).
  rewrite print_outputs_no_submission. cbn [List.length]. lia.
Qed.

(** X13. A run that returns has written nothing to stderr: what the
    build tool wrote to its own stderr (warnings) is shown only when the
    build fails. *)
Theorem script_success_quiet (w : World) :
  snd (script w) = Ok tt -> stderr_text (fst (script w)) = "".
Proof.
  intros H. unfold script in H |- *. ok_trace H.
  unfold main in H |- *. ok_trace H.
  match goal with
  | Hc : snd (configuration w) = Ok _ |- _ =>
      destruct (configuration_Ok w _ Hc) as (-> & _)
  end.
  match goal with
  | Hb : snd (compile_bicep w _) = Ok _ |- _ =>
      destruct (compile_bicep_Ok w _ _ Hb) as (cp & _ & _ & _ & ->)
  end.
  rewrite load_parameters_eq, !fst_print, !fst_emit, !fst_call, fst_lift.
  rewrite !stderr_text_app. cbn [fst stderr_text].
  rewrite (stderr_text_prints (fst (print_outputs w _)));
    [reflexivity | apply print_outputs_prints].
Qed.

Lemma script_success_quiet_witness :
  snd (script Cases.happy) = Ok tt /\
  stderr_text (fst (script Cases.happy)) = "" /\
  In (SubprocessRun (build_argv "infra/bicep/main.bicep") Cases.built)
     (fst (script Cases.happy)).
Proof.
  split; [reflexivity|]. split.
  - apply (script_success_quiet Cases.happy). reflexivity.
  - vm_compute. do 4 right. left. reflexivity.
Defined.

End DeployExtra.

(** ** Signs and sizes of binary64 numbers *)

Module FloatFacts.
Import Py PyFacts.

Lemma iter_xO (m d : positive) : Zpos (Pos.iter xO m d) = Zpos m * 2 ^ Zpos d.
Proof.
  induction d as [| d IH] using Pos.peano_ind.
  - cbn [Pos.iter]. lia.
  - rewrite Pos.iter_succ, Pos2Z.inj_succ, Z.pow_succ_r by lia.
    rewrite Pos2Z.inj_xO, IH. lia.
Qed.

(** Aligning a mantissa to a smaller exponent multiplies it by the power
    of two in between. *)
Lemma shl_align_fst (m : positive) (e e' : Z) :
  e' <= e -> Zpos (fst (shl_align m e e')) = Zpos m * 2 ^ (e - e').
Proof.
  intros Hle. unfold shl_align.
  destruct (e' - e) as [| d | d] eqn:Hd.
  - replace (e - e') with 0 by lia. cbn [fst]. lia.
  - lia.
  - cbn [fst]. rewrite iter_xO. f_equal. f_equal. lia.
Qed.

(** A mantissa of [d] binary digits lies between [2^(d-1)] and [2^d]. *)
Lemma digits2_pos_bounds (m : positive) :
  2 ^ (Zpos (digits2_pos m) - 1) <= Zpos m < 2 ^ Zpos (digits2_pos m).
Proof.
  induction m as [m IH | m IH |]; cbn [digits2_pos].
  - rewrite Pos2Z.inj_succ, Z.pow_succ_r by lia.
    replace (Z.succ (Zpos (digits2_pos m)) - 1) with (Z.succ (Zpos (digits2_pos m) - 1)) by lia.
    rewrite Z.pow_succ_r by lia. lia.
  - rewrite Pos2Z.inj_succ, Z.pow_succ_r by lia.
    replace (Z.succ (Zpos (digits2_pos m)) - 1) with (Z.succ (Zpos (digits2_pos m) - 1)) by lia.
    rewrite Z.pow_succ_r by lia. lia.
  - cbn. lia.
Qed.

(** Of two canonical binary64 numbers, the one with the larger exponent
    has the larger magnitude. *)
Lemma canonical_exponent_lt (m1 m2 : positive) (e1 e2 : Z) :
  canonical_mantissa prec emax m1 e1 = true ->
  canonical_mantissa prec emax m2 e2 = true ->
  e1 < e2 ->
  Zpos m1 < Zpos m2 * 2 ^ (e2 - e1).
Proof.
  unfold canonical_mantissa, fexp, emin, prec, emax.
  intros H1 H2 Hlt. apply Z.eqb_eq in H1, H2.
  pose proof (digits2_pos_bounds m1) as [_ Hm1].
  pose proof (digits2_pos_bounds m2) as [Hm2 _].
  assert (Hd1 : Zpos (digits2_pos m1) <= 53) by lia.
  assert (Hd2 : Zpos (digits2_pos m2) = 53) by lia.
  rewrite Hd2 in Hm2.
  assert (Hp1 : 2 ^ Zpos (digits2_pos m1) <= 2 ^ 53) by (apply Z.pow_le_mono_r; lia).
  assert (Hp2 : 2 ^ 1 <= 2 ^ (e2 - e1)) by (apply Z.pow_le_mono_r; lia).
  change (2 ^ 1) with 2 in Hp2.
  change (2 ^ (53 - 1)) with 4503599627370496 in Hm2.
  change (2 ^ 53) with 9007199254740992 in Hp1.
  nia.
Qed.

(** Rounding keeps the sign it is given. *)
Lemma binary_round_aux_sign (sx : bool) (mx ex : Z) (lx : location)
    (s : bool) (m : positive) (e : Z) :
  binary_round_aux prec emax sx mx ex lx = S754_finite s m e -> s = sx.
Proof.
  unfold binary_round_aux.
  destruct (shr_fexp prec emax mx ex lx) as [mrs' e'].
  destruct (shr_fexp prec emax _ e' loc_Exact) as [mrs'' e''].
  destruct (shr_m mrs''); try discriminate.
  destruct (e'' <=? emax - prec); [|discriminate].
  intros [= <- _ _]. reflexivity.
Qed.

Lemma binary_normalize_sign (z e : Z) (s : bool) (m : positive) (e' : Z) :
  0 <= z ->
  binary_normalize prec emax z e false = S754_finite s m e' -> s = false.
Proof.
  intros Hz. destruct z as [| p | p]; cbn [binary_normalize]; [discriminate | | lia].
  unfold binary_round. destruct (shl_align _ _ _) as [mz ez].
  apply binary_round_aux_sign.
Qed.

Lemma valid_canonical (s : bool) (m : positive) (e : Z) :
  valid_binary prec emax (S754_finite s m e) = true ->
  canonical_mantissa prec emax m e = true.
Proof.
  cbn [valid_binary]. unfold bounded. intros H.
  apply andb_prop in H as [H _]. exact H.
Qed.

(** The aligned difference of two canonical numbers is not negative when
    the subtrahend compares below or equal. *)
Lemma aligned_difference (sx sy : bool) (mx my : positive) (ex ey : Z) :
  canonical_mantissa prec emax mx ex = true ->
  canonical_mantissa prec emax my ey = true ->
  SFleb (S754_finite sy my ey) (S754_finite sx mx ex) = true ->
  0 <= cond_Zopp sx (Zpos (fst (shl_align mx ex (Z.min ex ey))))
       - cond_Zopp sy (Zpos (fst (shl_align my ey (Z.min ex ey)))).
Proof.
  intros Hx Hy Hle.
  rewrite !shl_align_fst by lia.
  unfold SFleb, SFcompare in Hle.
  destruct sy, sx; cbn [cond_Zopp]; try discriminate Hle.
  - (* both negative *)
    destruct (Z.compare_spec ey ex) as [Heq | Hlt | Hgt]; try discriminate Hle.
    + subst ey. rewrite Z.min_id, Z.sub_diag, !Z.mul_1_r.
      change (Pos.compare_cont Eq my mx) with (Pos.compare my mx) in Hle.
      destruct (Pos.compare_spec my mx) as [ | | ]; cbn [CompOpp] in Hle;
        try discriminate Hle; lia.
    + rewrite Z.min_l by lia. rewrite Z.sub_diag, Z.mul_1_r.
      pose proof (canonical_exponent_lt mx my ex ey Hx Hy ltac:(lia)). lia.
  - (* the subtrahend negative, the other positive *)
    pose proof (Z.pow_nonneg 2 (ex - Z.min ex ey) ltac:(lia)).
    pose proof (Z.pow_nonneg 2 (ey - Z.min ex ey) ltac:(lia)).
    nia.
  - (* both positive *)
    destruct (Z.compare_spec ey ex) as [Heq | Hlt | Hgt]; try discriminate Hle.
    + subst ey. rewrite Z.min_id, Z.sub_diag, !Z.mul_1_r.
      change (Pos.compare_cont Eq my mx) with (Pos.compare my mx) in Hle.
      destruct (Pos.compare_spec my mx) as [ | | ];
        try discriminate Hle; lia.
    + rewrite Z.min_r by lia. rewrite Z.sub_diag, Z.mul_1_r.
      pose proof (canonical_exponent_lt my mx ey ex Hy Hx ltac:(lia)). lia.
Qed.

(** A finite difference [x - y] with [y <= x] is positive. *)
Lemma float_sub_sign (x y : float) (s : bool) (m : positive) (e : Z) :
  valid_binary prec emax x = true ->
  valid_binary prec emax y = true ->
  SFleb y x = true ->
  float_sub x y = S754_finite s m e ->
  s = false.
Proof.
  intros Hx Hy Hle Hsub. unfold float_sub in Hsub.
  destruct x as [sx | sx | | sx mx ex], y as [sy | sy | | sy my ey];
    cbn [SFsub] in Hsub; try discriminate Hsub.
  - destruct sx, sy; discriminate Hsub.
  - injection Hsub as <- _ _. unfold SFleb, SFcompare in Hle.
    destruct sy; [reflexivity | discriminate Hle].
  - destruct sx, sy; discriminate Hsub.
  - injection Hsub as <- _ _. unfold SFleb, SFcompare in Hle.
    destruct sx; [discriminate Hle | reflexivity].
  - apply valid_canonical in Hx, Hy.
    apply (binary_normalize_sign _ _ _ _ _ (aligned_difference _ _ _ _ _ _ Hx Hy Hle) Hsub).
Qed.

(** Multiplying by a positive number keeps the sign. *)
Lemma float_mul_sign (x : float) (my : positive) (ey : Z) (s : bool) (m : positive)
    (e : Z) :
  float_mul x (S754_finite false my ey) = S754_finite s m e ->
  exists mx ex, x = S754_finite s mx ex.
Proof.
  unfold float_mul. destruct x as [sx | sx | | sx mx ex]; cbn [SFmul]; try discriminate.
  intros H. apply binary_round_aux_sign in H. subst s.
  rewrite xorb_false_r. exists mx, ex. reflexivity.
Qed.

Lemma float_sub_diag (x : float) :
  is_finite x = true -> float_sub x x = S754_zero false.
Proof.
  unfold float_sub. destruct x as [s | s | | s m e]; try discriminate; intros _.
  - destruct s; reflexivity.
  - cbn [SFsub]. rewrite Z.sub_diag. reflexivity.
Qed.

End FloatFacts.

(** ** Further properties of the performance tracker *)

Module PerformanceExtra.
Import Py Performance PyFacts FloatFacts.

Lemma thousand : float_of_int 1000 = S754_finite false 8796093022208000 (-43).
Proof. reflexivity. Qed.

Lemma track_performance_record (clock : Clock) (T : float) (r : dict) :
  track_performance clock T = Ok r ->
  exists ms, int_of_float (elapsed_ms clock T) = Ok ms /\
    dict_get "total_execution_time_ms" r = Some (VInt ms).
Proof.
  unfold track_performance, elapsed_ms.
  destruct (int_of_float _) as [ms | e | c]; cbn [bind]; try discriminate.
  intros [= <-]. exists ms. split; reflexivity.
Qed.

(** X14. A [start_time] that is NaN makes [track_performance] raise
    [ValueError], whatever the clock: no record is returned. *)
Theorem track_performance_nan (clock : Clock) :
  track_performance clock S754_nan = Raise ValueError.
Proof.
  unfold track_performance, float_sub, float_mul.
  destruct (time_time clock); reflexivity.
Qed.

(** X15. With a finite clock value, an infinite [start_time] makes
    [track_performance] raise [OverflowError]. *)
Theorem track_performance_infinite (clock : Clock) (s : bool) :
  is_finite (time_time clock) = true ->
  track_performance clock (S754_infinity s) = Raise OverflowError.
Proof.
  unfold track_performance, float_sub, float_mul. rewrite thousand.
  destruct (time_time clock); try discriminate; intros _; reflexivity.
Qed.

Lemma track_performance_infinite_witness :
  track_performance (Samples.clock_at Samples.two) (S754_infinity false)
  = Raise OverflowError.
Proof.
  apply (track_performance_infinite (Samples.clock_at Samples.two) false).
  reflexivity.
Defined.

(** X16. When the clock still shows the finite [start_time], the elapsed
    time is 0 ms. *)
Theorem track_performance_no_time (clock : Clock) (T : float) :
  is_finite T = true ->
  time_time clock = T ->
  exists r, track_performance clock T = Ok r /\
    dict_get "total_execution_time_ms" r = Some (VInt 0).
Proof.
  intros Hfin Hclock. unfold track_performance. rewrite Hclock, (float_sub_diag T Hfin).
  eexists. split; reflexivity.
Qed.

Lemma track_performance_no_time_witness :
  exists r, track_performance (Samples.clock_at Samples.nine_ms) Samples.nine_ms = Ok r /\
    dict_get "total_execution_time_ms" r = Some (VInt 0).
Proof.
  apply (track_performance_no_time (Samples.clock_at Samples.nine_ms) Samples.nine_ms);
    reflexivity.
Defined.

(** X17. For binary64 numbers, when [start_time] is not later than the
    clock value, the [total_execution_time_ms] of the record is not
    negative. *)
Theorem track_performance_not_negative (clock : Clock) (T : float) (r : dict) :
  valid_binary prec emax (time_time clock) = true ->
  valid_binary prec emax T = true ->
  float_ge (time_time clock) T = true ->
  track_performance clock T = Ok r ->
  exists ms, dict_get "total_execution_time_ms" r = Some (VInt ms) /\ 0 <= ms.
Proof.
  intros Hclock HT Hge Hr.
  destruct (track_performance_record clock T r Hr) as (ms & Hms & Hfield).
  exists ms. split; [exact Hfield|].
  unfold elapsed_ms in Hms. rewrite thousand in Hms.
  destruct (float_mul _ _) as [s | s | | s m e] eqn:Hmul; cbn [int_of_float] in Hms;
    try discriminate Hms.
  - injection Hms as <-. lia.
  - injection Hms as <-.
    destruct (float_mul_sign _ _ _ _ _ _ Hmul) as (mx & ex & Hsub).
    rewrite (float_sub_sign _ _ _ _ _ Hclock HT Hge Hsub). cbn [cond_Zopp].
    apply Z.shiftl_nonneg. lia.
Qed.

Lemma track_performance_not_negative_witness :
  exists ms,
    dict_get "total_execution_time_ms"
      [ ("total_execution_time_ms", VInt 1000);
        ("start_time", VFloat Samples.one);
        ("end_time", VFloat Samples.two);
        ("status", VStr "completed");
        ("workflow_version", VStr "v1.0") ] = Some (VInt ms) /\ 0 <= ms.
Proof.
  apply (track_performance_not_negative (Samples.clock_at Samples.two) Samples.one);
    reflexivity.
Defined.

(** X18. The stored milliseconds never overstate the elapsed float and
    fall short of it by less than one: with [q] the value of
    [(end_time - start_time) * 1000], [ms <= q < ms + 1] when [q] is
    not negative and [ms - 1 < q <= ms] when it is not positive. *)
Theorem track_performance_truncates (clock : Clock) (T : float) (r : dict) :
  track_performance clock T = Ok r ->
  exists q ms,
    float_to_Q (elapsed_ms clock T) = Some q /\
    dict_get "total_execution_time_ms" r = Some (VInt ms) /\
    (0 <= q -> inject_Z ms <= q /\ q < inject_Z ms + 1)%Q /\
    (q <= 0 -> inject_Z ms - 1 < q /\ q <= inject_Z ms)%Q.
Proof.
  intros Hr.
  destruct (track_performance_record clock T r Hr) as (ms & Hms & Hfield).
  pose proof (int_of_float_finite _ _ Hms) as Hfin.
  apply float_to_Q_is_finite in Hfin as [q Hq].
  rewrite (int_of_float_trunc _ _ Hq) in Hms. injection Hms as <-.
  exists q, (Qtrunc q). split; [exact Hq|]. split; [exact Hfield|].
  unfold Qtrunc. destruct (Qle_bool 0 q) eqn:Hsign.
  - apply Qle_bool_iff in Hsign. split.
    + intros _. split; [apply Qfloor_le|].
      eapply Qlt_le_trans; [apply Qlt_floor|].
      rewrite inject_Z_plus. apply Qle_refl.
    + intros Hneg. assert (Hzero : (q == 0)%Q) by (apply Qle_antisym; assumption).
      assert (Hfloor : Qfloor q = 0%Z) by (rewrite Hzero; reflexivity).
      rewrite Hfloor, Hzero. split; [reflexivity | apply Qle_refl].
  - assert (Hneg : (q < 0)%Q).
    { apply Qnot_le_lt. intros Hle. apply Qle_bool_iff in Hle.
      rewrite Hle in Hsign. discriminate Hsign. }
    split.
    + intros Hpos. exfalso. apply (Qlt_not_le _ _ Hneg Hpos).
    + intros _. split; [|apply Qle_ceiling].
      eapply Qle_lt_trans; [|apply Qceiling_lt].
      unfold Qle, Qminus, Qplus, Qopp, inject_Z. cbn [Qnum Qden]. lia.
Qed.

Lemma track_performance_truncates_witness :
  exists q ms,
    float_to_Q (elapsed_ms (Samples.clock_at Samples.one) Samples.two) = Some q /\
    dict_get "total_execution_time_ms"
      [ ("total_execution_time_ms", VInt (-1000));
        ("start_time", VFloat Samples.two);
        ("end_time", VFloat Samples.one);
        ("status", VStr "completed");
        ("workflow_version", VStr "v1.0") ] = Some (VInt ms) /\
    (0 <= q -> inject_Z ms <= q /\ q < inject_Z ms + 1)%Q /\
    (q <= 0 -> inject_Z ms - 1 < q /\ q <= inject_Z ms)%Q.
Proof.
  apply (track_performance_truncates (Samples.clock_at Samples.one) Samples.two).
  reflexivity.
Defined.

End PerformanceExtra.
